(** * Video normalisation pipeline: classification, plan construction,
      batch driver and verifier

    A shallow embedding of [src/main.py] and [src/verify.py].

    Python strings are modelled as [string] (byte strings); the values the
    inspection tool reports for the four colour fields are ASCII
    identifiers, so [str.lower] is modelled on ASCII letters.  A stream
    entry of the tool's JSON response is a dictionary from field names to
    strings, modelled as [gmap string string]; a field the tool leaves out
    is a key without a binding. *)

From Stdlib Require Import String Ascii List Bool ZArith Lia.
From stdpp Require Import base option list gmap strings.

Local Open Scope string_scope.
Local Open Scope list_scope.

(** ** Python string operations *)

Module PyStr.

(** [c.lower()] on one ASCII character. *)
Definition lower_ascii (c : ascii) : ascii :=
  let n := nat_of_ascii c in
  if (65 <=? n)%nat && (n <=? 90)%nat then ascii_of_nat (n + 32) else c.

(** [s.lower()] *)
Fixpoint lower (s : string) : string :=
  match s with
  | EmptyString => EmptyString
  | String c s' => String (lower_ascii c) (lower s')
  end.

(** [sub in s] for two strings: [sub] starts at some position of [s]. *)
Fixpoint contains (sub s : string) : bool :=
  String.prefix sub s ||
  match s with
  | EmptyString => false
  | String _ s' => contains sub s'
  end.

(** [x in {a, b, ...}] for a set literal of strings. *)
Definition mem (x : string) (l : list string) : bool :=
  existsb (String.eqb x) l.

(** [bool(s)]: a string is falsy exactly when it is empty. *)
Definition truthy (s : string) : bool :=
  match s with EmptyString => false | _ => true end.

(** [d.get(k) or ""] *)
Definition get_or_empty (d : gmap string string) (k : string) : string :=
  match d !! k with
  | Some s => if truthy s then s else ""
  | None => ""
  end.

(** [d.get(k, default)] *)
Definition get_default (d : gmap string string) (k default : string) : string :=
  match d !! k with
  | Some s => s
  | None => default
  end.

(** The line feed character and the string made of it. *)
Definition nl : string := String (ascii_of_nat 10) EmptyString.

(** The byte [c] lies between [lo] and [hi]. *)
Definition byte_in (lo hi : nat) (c : ascii) : bool :=
  (lo <=? nat_of_ascii c)%nat && (nat_of_ascii c <=? hi)%nat.

(** The bytes are well-formed UTF-8, as the strict decoder of
    [bytes.decode()] requires: no stray or missing continuation byte, no
    overlong form, no surrogate, nothing above U+10FFFF. *)
Fixpoint utf8_valid (b : string) : bool :=
  match b with
  | EmptyString => true
  | String c0 r0 =>
      if byte_in 0 127 c0 then utf8_valid r0
      else
        match r0 with
        | EmptyString => false
        | String c1 r1 =>
            if byte_in 194 223 c0 then byte_in 128 191 c1 && utf8_valid r1
            else
              match r1 with
              | EmptyString => false
              | String c2 r2 =>
                  if byte_in 224 239 c0 then
                    (if byte_in 224 224 c0 then byte_in 160 191 c1
                     else if byte_in 237 237 c0 then byte_in 128 159 c1
                     else byte_in 128 191 c1)
                    && byte_in 128 191 c2 && utf8_valid r2
                  else
                    match r2 with
                    | EmptyString => false
                    | String c3 r3 =>
                        byte_in 240 244 c0
                        && (if byte_in 240 240 c0 then byte_in 144 191 c1
                            else if byte_in 244 244 c0 then byte_in 128 143 c1
                            else byte_in 128 191 c1)
                        && byte_in 128 191 c2 && byte_in 128 191 c3
                        && utf8_valid r3
                    end
              end
        end
  end.

(** [b.decode()]: the text of well-formed bytes, which a [string] holds in
    the same bytes; [None] when the decoder raises [UnicodeDecodeError]. *)
Definition decode (b : string) : option string :=
  if utf8_valid b then Some b else None.

End PyStr.

Import PyStr.

(** ** main.py: classification *)

(** [is_hdr(transfer, color_space, primaries, pix_fmt)] *)
Definition hdr_pix_fmts : list string :=
  [ "p010le"; "p016le";
    "yuv420p10le"; "yuv422p10le"; "yuv444p10le";
    "yuv420p12le"; "yuv422p12le"; "yuv444p12le" ].

Definition is_hdr (transfer color_space primaries pix_fmt : string) : bool :=
  let hdr_like_colors :=
    contains "bt2020" primaries || contains "bt2020" color_space in
  let hdr_like_bitdepth :=
    mem pix_fmt hdr_pix_fmts || contains "10le" pix_fmt || contains "12le" pix_fmt in
  negb (mem transfer ["arib-std-b67"; "smpte2084"])
  && (hdr_like_colors || hdr_like_bitdepth).

(** The four branches of the [if]/[elif] chain of [build_ffmpeg_command]. *)
Inductive ColorProfile : Type := HLG | PQ | HeuristicHDR | SDR.

(** The branch taken, from the two values the chain tests. *)
Definition branch (transfer : string) (is_probably_hdr : bool) : ColorProfile :=
  if transfer =? "arib-std-b67" then HLG
  else if transfer =? "smpte2084" then PQ
  else if is_probably_hdr then HeuristicHDR
  else SDR.

(** What each branch prints. *)
Definition branch_message (p : ColorProfile) : string :=
  match p with
  | HLG => "-> Type: HDR (HLG). Applying HLG to SDR tone mapping (Hable)."
  | PQ => "-> Type: HDR (PQ). Applying PQ to SDR tone mapping (Hable)."
  | HeuristicHDR =>
      "⚠️ Transfer is not HLG/PQ, but stream looks HDR            (BT.2020 and/or 10-bit). Using HDR->SDR fallback tonemap."
  | SDR => "-> Type: SDR. Applying normalization only."
  end.

(** The [filter_chain] each branch assigns. *)
Definition filter_chain (p : ColorProfile) : string :=
  match p with
  | HLG =>
      "zscale=t=linear:npl=100,format=gbrpf32le," +:+
      "zscale=p=bt709," +:+
      "tonemap=tonemap=hable:desat=0," +:+
      "zscale=t=bt709:m=bt709:r=tv,format=yuv420p"
  | PQ =>
      "format=p010le," +:+
      "zscale=t=linear:npl=100,format=gbrpf32le," +:+
      "zscale=p=bt709," +:+
      "tonemap=tonemap=hable:desat=0," +:+
      "zscale=t=bt709:m=bt709:r=tv,format=yuv420p"
  | HeuristicHDR =>
      "format=p010le," +:+
      "zscale=t=linear:npl=100,format=gbrpf32le," +:+
      "zscale=p=bt709," +:+
      "tonemap=tonemap=hable:desat=0," +:+
      "zscale=t=bt709:m=bt709:r=tv,format=yuv420p"
  | SDR => "colorspace=all=bt709:trc=bt709:format=yuv420p"
  end.

(** The metadata [build_ffmpeg_command] reads off one stream entry. *)
Record StreamMetadata : Type := {
  transfer : string;
  color_space : string;
  primaries : string;
  pix_fmt : string
}.

Definition read_metadata (info : gmap string string) : StreamMetadata :=
  {| transfer := get_default info "color_transfer" "unknown";
     color_space := lower (get_or_empty info "color_space");
     primaries := lower (get_or_empty info "color_primaries");
     pix_fmt := lower (get_or_empty info "pix_fmt") |}.

Definition classify (md : StreamMetadata) : ColorProfile :=
  branch (transfer md)
         (is_hdr (transfer md) (color_space md) (primaries md) (pix_fmt md)).

(** ** pathlib / os.path on normalised POSIX path strings *)

Module PyPath.

(** Position of the last ["."] of [s], as [s.rfind('.')]. *)
Fixpoint rfind_dot (s : string) : option nat :=
  match s with
  | EmptyString => None
  | String c s' =>
      match rfind_dot s' with
      | Some i => Some (S i)
      | None => if Ascii.eqb c "." then Some 0%nat else None
      end
  end.

(** Position just after the last ["/"] of [s] (0 when there is none). *)
Fixpoint after_last_slash (s : string) : nat :=
  match s with
  | EmptyString => 0
  | String c s' =>
      match after_last_slash s' with
      | S i => S (S i)
      | O => if Ascii.eqb c "/" then 1 else 0
      end
  end.

(** [os.path.basename(p)], which is also [Path(p).name] for a normalised
    path. *)
Definition basename (p : string) : string :=
  let i := after_last_slash p in
  String.substring i (String.length p - i) p.

(** [PurePath.suffix] of an entry whose final component is [name]: the
    part from the last dot on, unless that dot is the first or the last
    character. *)
Definition suffix (name : string) : string :=
  match rfind_dot name with
  | Some i =>
      if (0 <? i)%nat && (i <? String.length name - 1)%nat
      then String.substring i (String.length name - i) name
      else ""
  | None => ""
  end.

(** [PurePath.stem] *)
Definition stem (name : string) : string :=
  match rfind_dot name with
  | Some i =>
      if (0 <? i)%nat && (i <? String.length name - 1)%nat
      then String.substring 0 i name
      else name
  | None => name
  end.

(** [str(Path(d) / name)] for a normalised directory [d] and a single
    component [name]. *)
Definition join (d name : string) : string :=
  if d =? "." then name
  else if d =? "/" then d +:+ name
  else d +:+ "/" +:+ name.

(** [str(Path(p).parent)] *)
Definition parent (p : string) : string :=
  match after_last_slash p with
  | O => "."
  | S O => "/"
  | S i => String.substring 0 i p
  end.

(** [Path(p).parent.name] *)
Definition parent_name (p : string) : string :=
  let d := parent p in
  if d =? "." then "" else basename d.

End PyPath.

(** ** The outside world and the effects of a run *)

(** What the inspection tool and [json.loads] give for one file.  The
    strings carried by the failures are the text of the Python exception. *)
Inductive probe_response : Type :=
| ToolFailed (e : string)
    (* [subprocess.run(..., check=True)] raised: non-zero exit status *)
| Unparseable (e : string)
    (* [json.loads] raised *)
| Parsed (streams : option (list (gmap string string))).
    (* a JSON object, with the value of its ["streams"] key if it has one *)

(** The file system and the two external tools, as a run finds them.  They
    are fixed for the duration of the run, and the tool's response has the
    format of its JSON output: an object whose ["streams"], when present,
    is a list of objects with string values. *)
Record World : Type := {
  ffprobe : string -> probe_response;
  (** the engine run on a full argument list: [None] when it exits with
      status 0, [Some err] when it exits with another status, [err] being
      the bytes it wrote on its error stream *)
  ffmpeg : list string -> option string;
  path_exists : string -> bool;
  is_dir : string -> bool;
  is_file : string -> bool;
  (** names of the immediate entries of a directory, in [iterdir] order *)
  iterdir : string -> list string;
  (** result of [glob("outputs/*_normalized.mp4")] *)
  glob_outputs : list string
}.

(** What a process has done so far. *)
Record Proc : Type := {
  stdout : list string;            (* one entry per [print] call *)
  engine_runs : list (list string);  (* argument lists handed to the engine *)
  made_dirs : list string          (* [os.makedirs] calls *)
}.

Definition start : Proc :=
  {| stdout := []; engine_runs := []; made_dirs := [] |}.

(** A statement either runs to its end or leaves through [sys.exit]. *)
Inductive outcome (A : Type) : Type :=
| Returned (a : A)
| Exited (code : Z).
Arguments Returned {A} a.
Arguments Exited {A} code.

Definition Py (A : Type) : Type := Proc -> outcome A * Proc.

#[global] Instance Py_ret : MRet Py := fun A a s => (Returned a, s).

#[global] Instance Py_bind : MBind Py := fun A B k m s =>
  match m s with
  | (Returned a, s') => k a s'
  | (Exited c, s') => (Exited c, s')
  end.

Definition print (line : string) : Py unit :=
  fun s => (Returned tt,
            {| stdout := stdout s ++ [line];
               engine_runs := engine_runs s;
               made_dirs := made_dirs s |}).

Definition sys_exit {A} (code : Z) : Py A := fun s => (Exited code, s).

(** An exception that no handler catches: the interpreter writes the
    traceback on the error stream and the process ends with status 1. *)
Definition uncaught {A} : Py A := fun s => (Exited 1%Z, s).

Definition makedirs (p : string) : Py unit :=
  fun s => (Returned tt,
            {| stdout := stdout s;
               engine_runs := engine_runs s;
               made_dirs := made_dirs s ++ [p] |}).

(** [subprocess.run(cmd, check=True, ...)] on the engine: the run is
    recorded and its result handed back to the caller's [try], the error
    stream of a failed run as the bytes of [e.stderr]. *)
Definition run_engine (w : World) (cmd : list string) : Py (option string) :=
  fun s => (Returned (ffmpeg w cmd),
            {| stdout := stdout s;
               engine_runs := engine_runs s ++ [cmd];
               made_dirs := made_dirs s |}).

(** [for x in l: body(x)] *)
Fixpoint for_each {A} (l : list A) (body : A -> Py unit) : Py unit :=
  match l with
  | [] => mret tt
  | x :: l' => body x ;; for_each l' body
  end.

(** The exit status of the process whose [main] is [m]. *)
Definition exit_code (r : outcome unit) : Z :=
  match r with
  | Returned _ => 0
  | Exited c => c
  end.

(** ** main.py *)

(** [data.get("streams", [])[0]]: the first stream entry, or the text of
    the exception raised on the way to it. *)
Definition first_stream (r : probe_response) : string + gmap string string :=
  match r with
  | ToolFailed e => inl e
  | Unparseable e => inl e
  | Parsed streams =>
      match default [] streams with
      | [] => inl "list index out of range"
      | info :: _ => inr info
      end
  end.

(** [get_video_info(file_path)]: every exception of the [try] block is
    answered by a message and [sys.exit(1)]. *)
Definition get_video_info (w : World) (file_path : string)
    : Py (gmap string string) :=
  match first_stream (ffprobe w file_path) with
  | inr stream_info => mret stream_info
  | inl e =>
      print ("Error probing file " +:+ file_path +:+ ": " +:+ e) ;;
      sys_exit 1
  end.

(** The argument list assembled at the end of [build_ffmpeg_command]. *)
Definition ffmpeg_command (input_path chain output_path : string) : list string :=
  [ "ffmpeg";
    "-y";
    "-i"; input_path;
    "-vf"; chain;
    "-c:v"; "libx264";
    "-preset"; "slow";
    "-crf"; "23";
    "-c:a"; "copy";
    output_path ].

(** [build_ffmpeg_command(input_path, output_path)] *)
Definition build_ffmpeg_command (w : World) (input_path output_path : string)
    : Py (list string) :=
  info ← get_video_info w input_path;
  let md := read_metadata info in
  print ("Detected Transfer Function: " +:+ transfer md) ;;
  let is_probably_hdr :=
    is_hdr (transfer md) (color_space md) (primaries md) (pix_fmt md) in
  let p := branch (transfer md) is_probably_hdr in
  print (branch_message p) ;;
  mret (ffmpeg_command input_path (filter_chain p) output_path).

(** [process_single_file(input_path, output_path)].  The handler of
    [CalledProcessError] decodes [e.stderr] before it prints; a
    [UnicodeDecodeError] raised there is caught nowhere. *)
Definition process_single_file (w : World) (input_path output_path : string)
    : Py unit :=
  if negb (path_exists w input_path) then
    print ("Error: Input " +:+ input_path +:+ " not found.")
  else
    print ("Processing: " +:+ input_path +:+ " -> " +:+ output_path) ;;
    cmd ← build_ffmpeg_command w input_path output_path;
    r ← run_engine w cmd;
    match r with
    | None => print ("✅ Done: " +:+ PyPath.basename output_path)
    | Some stderr =>
        match decode stderr with
        | Some text => print ("❌ Error encoding " +:+ input_path +:+ ": " +:+ text)
        | None => uncaught
        end
    end.

Definition supported_ext : list string := [".mp4"; ".mov"; ".mkv"; ".avi"].

(** The comprehension of [main]: the entries of the input directory kept
    for the batch. *)
Definition video_files (w : World) (input_path : string) : list string :=
  filter (fun f => mem (lower (PyPath.suffix f)) supported_ext = true)
         (iterdir w input_path).

(** The name the batch loop gives the output of the entry [name]. *)
Definition new_filename (name : string) : string :=
  PyPath.stem name +:+ "_normalized" +:+ PyPath.suffix name.

(** [main()] with the two positional arguments [input_path] and
    [output_path]. *)
Definition main (w : World) (input_path output_path : string) : Py unit :=
  if is_dir w input_path then
    (if negb (path_exists w output_path) then makedirs output_path else mret tt) ;;
    print ("📁 Batch mode detected. Scanning " +:+ input_path +:+ "...") ;;
    let files := video_files w input_path in
    match files with
    | [] => print "No video files found in input directory."
    | _ =>
        for_each files (fun video_file =>
          let destination := PyPath.join output_path (new_filename video_file) in
          process_single_file w (PyPath.join input_path video_file) destination)
    end
  else if is_file w input_path then
    (if PyStr.truthy (PyPath.parent_name output_path)
        && negb (path_exists w (PyPath.parent output_path))
     then makedirs (PyPath.parent output_path) else mret tt) ;;
    process_single_file w input_path output_path
  else
    print "Error: Input path is invalid." ;;
    sys_exit 1.

(** Running a program from the initial state. *)
Definition run {A} (m : Py A) : outcome A * Proc := m start.

(** ** verify.py *)

(** [json.loads(result.stdout)["streams"][0]] *)
Definition get_metadata (w : World) (file_path : string)
    : string + gmap string string :=
  match ffprobe w file_path with
  | ToolFailed e => inl e
  | Unparseable e => inl e
  | Parsed None => inl "'streams'"
  | Parsed (Some []) => inl "list index out of range"
  | Parsed (Some (info :: _)) => inr info
  end.

(** The [expected] dictionary, in the order its items are iterated. *)
Definition expected : list (string * string) :=
  [ ("pix_fmt", "yuv420p");
    ("color_space", "bt709");
    ("color_primaries", "bt709");
    ("color_transfer", "bt709") ].

(** The text appended to [errors] for one differing field. *)
Definition mismatch_text (key expected_value actual_value : string) : string :=
  key +:+ ": expected '" +:+ expected_value +:+ "', got '" +:+ actual_value +:+ "'".

(** The loop of [check_file] that fills [errors]. *)
Fixpoint collect_errors (data : gmap string string)
    (items : list (string * string)) : list string :=
  match items with
  | [] => []
  | (key, expected_value) :: rest =>
      let actual_value := get_default data key "unknown" in
      if negb (actual_value =? expected_value)
      then mismatch_text key expected_value actual_value :: collect_errors data rest
      else collect_errors data rest
  end.

(** [check_file(file_path)].  The first [print] ends with a space instead
    of a line feed; the verdict printed next is a separate entry. *)
Definition check_file (w : World) (file_path : string) : Py bool :=
  print ("🔍 Verifying: " +:+ PyPath.basename file_path +:+ "...") ;;
  match get_metadata w file_path with
  | inl e =>
      print ("❌ ERROR: Could not read metadata. " +:+ e) ;;
      mret false
  | inr data =>
      let errors := collect_errors data expected in
      match errors with
      | [] => print "✅ PASS" ;; mret true
      | _ =>
          print "❌ FAIL" ;;
          for_each errors (fun err => print ("   - " +:+ err)) ;;
          mret false
      end
  end.

(** The loop of [verify.main] over the files found, threading
    [all_passed]. *)
Fixpoint check_all (w : World) (files : list string) (all_passed : bool)
    : Py bool :=
  match files with
  | [] => mret all_passed
  | file_path :: rest =>
      ok ← check_file w file_path;
      check_all w rest (if negb ok then false else all_passed)
  end.

(** [verify.main()] *)
Definition verify_main (w : World) : Py unit :=
  let files := glob_outputs w in
  match files with
  | [] =>
      print "No output files found to verify." ;;
      sys_exit 1
  | _ =>
      all_passed ← check_all w files true;
      if (all_passed : bool) then
        print (nl +:+ "✨ All files match Rec.709 SDR standards!") ;;
        sys_exit 0
      else
        print (nl +:+ "⚠️ Some files failed verification.") ;;
        sys_exit 1
  end.

(** ** Reading a filter chain as the engine does

  Stages are separated by commas; a stage is an operation name, ["="],
  and arguments separated by colons; an argument is [key=value] or a
  bare value. *)

Module FilterGraph.

(** [s.split(sep)] for a one-character separator. *)
Fixpoint split_on (sep : ascii) (s : string) : list string :=
  match s with
  | EmptyString => [""]
  | String c s' =>
      if Ascii.eqb c sep then "" :: split_on sep s'
      else match split_on sep s' with
           | h :: t => String c h :: t
           | [] => [String c ""]
           end
  end.

(** [s.partition(sep)]: the text before the first [sep], and the text
    after it when there is one. *)
Fixpoint cut_at (sep : ascii) (s : string) : string * option string :=
  match s with
  | EmptyString => ("", None)
  | String c s' =>
      if Ascii.eqb c sep then ("", Some s')
      else let '(h, t) := cut_at sep s' in (String c h, t)
  end.

Record FilterStage : Type := {
  op : string;
  args : list (option string * string)
}.

Definition parse_arg (a : string) : option string * string :=
  match cut_at "=" a with
  | (k, Some v) => (Some k, v)
  | (v, None) => (None, v)
  end.

Definition parse_stage (s : string) : FilterStage :=
  match cut_at "=" s with
  | (name, Some rest) =>
      {| op := name; args := map parse_arg (split_on ":" rest) |}
  | (name, None) => {| op := name; args := [] |}
  end.

Definition stages (chain : string) : list FilterStage :=
  map parse_stage (split_on "," chain).

End FilterGraph.

Import FilterGraph.

(** ** Derived views used in the statements *)

(** A string has no upper-case ASCII letter. *)
Definition is_lowercase (s : string) : bool :=
  forallb (fun c => negb ((65 <=? nat_of_ascii c)%nat && (nat_of_ascii c <=? 90)%nat))
          (list_ascii_of_string s).

(** [sub] occurs in [s]. *)
Definition occurs_in (sub s : string) : Prop :=
  exists a b, s = a +:+ sub +:+ b.

(** The disjunction of rule 3 of the classification policy. *)
Definition looks_hdr (md : StreamMetadata) : Prop :=
  occurs_in "bt2020" (primaries md)
  \/ occurs_in "bt2020" (color_space md)
  \/ In (pix_fmt md) hdr_pix_fmts
  \/ occurs_in "10le" (pix_fmt md)
  \/ occurs_in "12le" (pix_fmt md).

(** The stream entry and the metadata of end-to-end scenario 1. *)
Definition pq_info : gmap string string :=
  <["color_transfer" := "smpte2084"]>
  (<["color_space" := "bt2020nc"]>
  (<["color_primaries" := "bt2020"]>
  (<["pix_fmt" := "yuv420p10le"]> ∅))).

Definition pq_metadata : StreamMetadata :=
  {| transfer := "smpte2084"; color_space := "bt2020nc";
     primaries := "bt2020"; pix_fmt := "yuv420p10le" |}.

(** The stages named by scenario 1. *)
Definition force_10bit : FilterStage :=
  {| op := "format"; args := [(None, "p010le")] |}.
Definition linearize : FilterStage :=
  {| op := "zscale"; args := [(Some "t", "linear"); (Some "npl", "100")] |}.
Definition float_format : FilterStage :=
  {| op := "format"; args := [(None, "gbrpf32le")] |}.
Definition remap_primaries : FilterStage :=
  {| op := "zscale"; args := [(Some "p", "bt709")] |}.
Definition tonemap_hable : FilterStage :=
  {| op := "tonemap"; args := [(Some "tonemap", "hable"); (Some "desat", "0")] |}.
Definition to_bt709 : FilterStage :=
  {| op := "zscale";
     args := [(Some "t", "bt709"); (Some "m", "bt709"); (Some "r", "tv")] |}.
Definition planar_8bit : FilterStage :=
  {| op := "format"; args := [(None, "yuv420p")] |}.

(** ** Views of the verifier *)

(** The entry of [errors] that reports the field [key]. *)
Definition names_field (key entry : string) : bool :=
  String.prefix (key +:+ ": expected '") entry.

(** The verdict of [check_file], without its output. *)
Definition verdict (w : World) (file_path : string) : bool :=
  match get_metadata w file_path with
  | inl _ => false
  | inr data =>
      match collect_errors data expected with
      | [] => true
      | _ => false
      end
  end.

(** The lines [check_file] prints. *)
Definition check_file_lines (w : World) (file_path : string) : list string :=
  ("🔍 Verifying: " +:+ PyPath.basename file_path +:+ "...") ::
  match get_metadata w file_path with
  | inl e => ["❌ ERROR: Could not read metadata. " +:+ e]
  | inr data =>
      match collect_errors data expected with
      | [] => ["✅ PASS"]
      | errors => "❌ FAIL" :: map (fun err => "   - " +:+ err) errors
      end
  end.

(** The two closing messages of a failed verification run. *)
Definition no_files_message : string := "No output files found to verify.".
Definition some_failed_message : string :=
  nl +:+ "⚠️ Some files failed verification.".
Definition all_passed_message : string :=
  nl +:+ "✨ All files match Rec.709 SDR standards!".

(** ** Views of the batch driver *)

(** The stream entry [get_video_info] returns for a file, if it returns. *)
Definition stream_of (w : World) (file_path : string)
    : option (gmap string string) :=
  match first_stream (ffprobe w file_path) with
  | inr info => Some info
  | inl _ => None
  end.

(** A file that exists and on which the probe fails. *)
Definition probe_fails (w : World) (input_path : string) : bool :=
  path_exists w input_path && bool_decide (stream_of w input_path = None).

(** The command [process_single_file] hands to the engine, if it gets
    that far. *)
Definition engine_command (w : World) (input_path output_path : string)
    : option (list string) :=
  if path_exists w input_path then
    match stream_of w input_path with
    | Some info =>
        Some (ffmpeg_command input_path
                (filter_chain (classify (read_metadata info))) output_path)
    | None => None
    end
  else None.

(** A file on which the engine is run and fails with an error stream that
    is not well-formed UTF-8. *)
Definition decode_fails (w : World) (input_path output_path : string) : bool :=
  match engine_command w input_path output_path with
  | Some cmd =>
      match ffmpeg w cmd with
      | Some stderr => negb (utf8_valid stderr)
      | None => false
      end
  | None => false
  end.

(** A file at which [process_single_file] ends the whole run. *)
Definition stops_run (w : World) (input_path output_path : string) : bool :=
  probe_fails w input_path || decode_fails w input_path output_path.

(** The lines [process_single_file] prints. *)
Definition process_lines (w : World) (input_path output_path : string)
    : list string :=
  if negb (path_exists w input_path) then
    ["Error: Input " +:+ input_path +:+ " not found."]
  else
    ("Processing: " +:+ input_path +:+ " -> " +:+ output_path) ::
    match first_stream (ffprobe w input_path) with
    | inl e => ["Error probing file " +:+ input_path +:+ ": " +:+ e]
    | inr info =>
        let md := read_metadata info in
        [ "Detected Transfer Function: " +:+ transfer md;
          branch_message (classify md) ]
        ++ match ffmpeg w (ffmpeg_command input_path
                             (filter_chain (classify md)) output_path) with
           | None => ["✅ Done: " +:+ PyPath.basename output_path]
           | Some stderr =>
               match decode stderr with
               | Some text =>
                   ["❌ Error encoding " +:+ input_path +:+ ": " +:+ text]
               | None => []
               end
           end
    end.

(** The entry [g] of the input directory [d] ends the batch. *)
Definition batch_stop (w : World) (d o : string) (g : string) : bool :=
  stops_run w (PyPath.join d g) (PyPath.join o (new_filename g)).

(** The entries a loop reaches when it ends at the first entry on which
    [stop] holds: all of them up to and including that one. *)
Fixpoint reached (stop : string -> bool) (files : list string) : list string :=
  match files with
  | [] => []
  | f :: rest => f :: (if stop f then [] else reached stop rest)
  end.

(** ** Worked runs *)

(** A batch of two files where the probe fails on the first. *)
Definition failing_batch : World :=
  {| ffprobe := fun p =>
       if p =? "in/bad.mp4" then ToolFailed "non-zero exit status 1"
       else Parsed (Some [pq_info]);
     ffmpeg := fun _ => None;
     path_exists := fun _ => true;
     is_dir := fun p => (p =? "in") || (p =? "out");
     is_file := fun _ => false;
     iterdir := fun p => if p =? "in" then ["bad.mp4"; "good.mp4"] else [];
     glob_outputs := [] |}.


(** Scenario 2. *)
Definition scenario_batch : World :=
  {| ffprobe := fun _ => Parsed (Some [pq_info]);
     ffmpeg := fun c => if mem "in/b.mov" c then Some "encode failed" else None;
     path_exists := fun _ => true;
     is_dir := fun p => (p =? "in") || (p =? "out");
     is_file := fun _ => false;
     iterdir := fun p => if p =? "in" then ["a.mp4"; "b.mov"; "readme.txt"] else [];
     glob_outputs := [] |}.

(** The stream entry of a conforming output, and one without primaries. *)
Definition target_info : gmap string string :=
  <["pix_fmt" := "yuv420p"]>
  (<["color_space" := "bt709"]>
  (<["color_primaries" := "bt709"]>
  (<["color_transfer" := "bt709"]> ∅))).

Definition no_primaries_info : gmap string string :=
  <["pix_fmt" := "yuv420p"]>
  (<["color_space" := "bt709"]>
  (<["color_transfer" := "bt709"]> ∅)).

(** An output directory with a conforming file, a file without primaries
    and a file the inspection tool cannot read. *)
Definition verify_world : World :=
  {| ffprobe := fun p =>
       if p =? "outputs/a_normalized.mp4" then Parsed (Some [target_info])
       else if p =? "outputs/b_normalized.mp4" then Parsed (Some [no_primaries_info])
       else ToolFailed "non-zero exit status 1";
     ffmpeg := fun _ => None;
     path_exists := fun _ => true;
     is_dir := fun _ => false;
     is_file := fun _ => true;
     iterdir := fun _ => [];
     glob_outputs := [ "outputs/a_normalized.mp4"; "outputs/b_normalized.mp4";
                       "outputs/c_normalized.mp4" ] |}.

(** An output directory without any matching file. *)
Definition empty_outputs : World :=
  {| ffprobe := fun _ => ToolFailed "non-zero exit status 1";
     ffmpeg := fun _ => None;
     path_exists := fun _ => false;
     is_dir := fun _ => false;
     is_file := fun _ => false;
     iterdir := fun _ => [];
     glob_outputs := [] |}.

(** ** Views used for the further properties *)

(** The chain has a tone-mapping stage. *)
Definition has_tonemap (chain : string) : bool :=
  existsb (fun st => op st =? "tonemap") (stages chain).

(** The line [check_file] prints first for a file. *)
Definition is_verifying_line (line : string) : bool :=
  String.prefix "🔍 Verifying: " line.

(** The same world with another behaviour of the engine. *)
Definition with_engine (w : World) (engine : list string -> option string)
    : World :=
  {| ffprobe := ffprobe w;
     ffmpeg := engine;
     path_exists := path_exists w;
     is_dir := is_dir w;
     is_file := is_file w;
     iterdir := iterdir w;
     glob_outputs := glob_outputs w |}.

(** Every failure of the engine comes with an error stream that
    [bytes.decode()] accepts. *)
Definition decodable_errors (engine : list string -> option string) : Prop :=
  forall cmd stderr, engine cmd = Some stderr -> utf8_valid stderr = true.

(** What [main] leaves behind apart from its output. *)
Definition control_flow (r : outcome unit * Proc)
    : outcome unit * list (list string) * list string :=
  (r.1, engine_runs r.2, made_dirs r.2).

(** One input file [in.mp4], an output directory that does not exist yet
    and an engine that fails. *)
Definition single_file_world : World :=
  {| ffprobe := fun _ => Parsed (Some [pq_info]);
     ffmpeg := fun _ => Some "encode failed";
     path_exists := fun p => p =? "in.mp4";
     is_dir := fun _ => false;
     is_file := fun p => p =? "in.mp4";
     iterdir := fun _ => [];
     glob_outputs := [] |}.

(** An input file whose probe response has no stream entry. *)
Definition no_stream_world : World :=
  {| ffprobe := fun _ => Parsed (Some []);
     ffmpeg := fun _ => None;
     path_exists := fun _ => true;
     is_dir := fun _ => false;
     is_file := fun _ => true;
     iterdir := fun _ => [];
     glob_outputs := ["outputs/x_normalized.mp4"] |}.

(** A directory with an entry that has gone by the time it is processed,
    and an output directory that does not exist yet. *)
Definition dangling_batch : World :=
  {| ffprobe := fun _ => Parsed (Some [target_info]);
     ffmpeg := fun _ => None;
     path_exists := fun p => negb (p =? "in/gone.mkv") && negb (p =? "out");
     is_dir := fun p => p =? "in";
     is_file := fun _ => false;
     iterdir := fun p => if p =? "in" then ["gone.mkv"; "here.avi"] else [];
     glob_outputs := [] |}.

(** An engine failure whose error stream ends in the byte 255. *)
Definition bad_stderr : string := "bad: " +:+ String (ascii_of_nat 255) EmptyString.

(** A batch of two files that can be probed, with an engine that fails on
    the first and writes [bad_stderr]. *)
Definition undecodable_batch : World :=
  {| ffprobe := fun _ => Parsed (Some [target_info]);
     ffmpeg := fun c => if mem "in/a.mp4" c then Some bad_stderr else None;
     path_exists := fun _ => true;
     is_dir := fun p => (p =? "in") || (p =? "out");
     is_file := fun _ => false;
     iterdir := fun p => if p =? "in" then ["a.mp4"; "b.mp4"] else [];
     glob_outputs := [] |}.

(** The same world with another result of the verifier's [glob]. *)
Definition with_outputs (w : World) (files : list string) : World :=
  {| ffprobe := ffprobe w;
     ffmpeg := ffmpeg w;
     path_exists := path_exists w;
     is_dir := is_dir w;
     is_file := is_file w;
     iterdir := iterdir w;
     glob_outputs := files |}.

(** * Properties *)

(** ** Lemmas on strings *)

Section StringFacts.

Lemma append_cons (c : ascii) (a b : string) :
  String c a +:+ b = String c (a +:+ b).
Proof. reflexivity. Qed.

Lemma append_empty (b : string) : "" +:+ b = b.
Proof. reflexivity. Qed.

Lemma prefix_occurs (p s : string) :
  String.prefix p s = true <-> exists r, s = p +:+ r.
Proof.
  revert s. induction p as [|a p IH]; intros s.
  - split; [intros _; exists s; reflexivity | destruct s; reflexivity].
  - destruct s as [|b s]; cbn [String.prefix].
    + split; [discriminate | intros [r Hr]; discriminate].
    + destruct (ascii_dec a b) as [->|Hne].
      * rewrite IH. split; intros [r Hr]; exists r;
          rewrite append_cons in *; congruence.
      * split; [discriminate |].
        intros [r Hr]. rewrite append_cons in Hr. congruence.
Qed.

Lemma contains_occurs (sub s : string) :
  contains sub s = true <-> occurs_in sub s.
Proof.
  unfold occurs_in. induction s as [|c s IH]; cbn [contains].
  - rewrite orb_false_r, prefix_occurs. split.
    + intros [r Hr]. exists "", r. exact Hr.
    + intros [a [b Hab]]. destruct a as [|c' a].
      * exists b. exact Hab.
      * rewrite append_cons in Hab. discriminate.
  - rewrite orb_true_iff, IH, prefix_occurs. split.
    + intros [[r Hr]|[a [b Hab]]].
      * exists "", r. exact Hr.
      * exists (String c a), b. rewrite append_cons. congruence.
    + intros [a [b Hab]]. destruct a as [|c' a].
      * left. exists b. exact Hab.
      * right. exists a, b. rewrite append_cons in Hab. congruence.
Qed.

Lemma mem_In (x : string) (l : list string) : mem x l = true <-> In x l.
Proof.
  unfold mem. rewrite existsb_exists. split.
  - intros [y [Hy Heq]]. apply String.eqb_eq in Heq. congruence.
  - intros H. exists x. split; [exact H | apply String.eqb_refl].
Qed.

Lemma lower_ascii_not_upper (c : ascii) :
  negb ((65 <=? nat_of_ascii (lower_ascii c))%nat
        && (nat_of_ascii (lower_ascii c) <=? 90)%nat) = true.
Proof.
  unfold lower_ascii.
  destruct ((65 <=? nat_of_ascii c)%nat && (nat_of_ascii c <=? 90)%nat) eqn:E.
  - apply andb_true_iff in E as [E1 E2].
    apply Nat.leb_le in E1. apply Nat.leb_le in E2.
    rewrite nat_ascii_embedding by lia.
    apply negb_true_iff, andb_false_iff. right. apply Nat.leb_gt. lia.
  - rewrite E. reflexivity.
Qed.

Lemma lower_is_lowercase (s : string) : is_lowercase (lower s) = true.
Proof.
  unfold is_lowercase. induction s as [|c s IH].
  - reflexivity.
  - cbn [lower list_ascii_of_string forallb].
    apply andb_true_iff. split; [apply lower_ascii_not_upper | exact IH].
Qed.

Lemma get_or_empty_default (d : gmap string string) (k : string) :
  get_or_empty d k = default "" (d !! k).
Proof.
  unfold get_or_empty. destruct (d !! k) as [[|c s]|]; reflexivity.
Qed.

End StringFacts.

(** ** Classification and plan construction *)

Section Classification.

Lemma is_hdr_looks_hdr (md : StreamMetadata) :
  transfer md <> "arib-std-b67" ->
  transfer md <> "smpte2084" ->
  is_hdr (transfer md) (color_space md) (primaries md) (pix_fmt md) = true
  <-> looks_hdr md.
Proof.
  intros Hhlg Hpq. unfold is_hdr, looks_hdr.
  assert (mem (transfer md) ["arib-std-b67"; "smpte2084"] = false) as ->.
  { apply not_true_is_false. rewrite mem_In. simpl. intuition congruence. }
  cbn [negb andb].
  rewrite !orb_true_iff, !contains_occurs, mem_In. tauto.
Qed.

Lemma branch_other (t : string) (b : bool) :
  t <> "arib-std-b67" -> t <> "smpte2084" ->
  branch t b = if b then HeuristicHDR else SDR.
Proof.
  intros Hhlg Hpq. unfold branch.
  apply String.eqb_neq in Hhlg. apply String.eqb_neq in Hpq.
  rewrite Hhlg, Hpq. reflexivity.
Qed.

End Classification.

(** C2 (counterexample): a stream entry without [color_space] gives the
    empty string, not ["unknown"], as colour space; and a transfer value
    reported in upper case is kept as it is. *)
Lemma read_metadata_not_all_unknown_lowercase :
  ((∅ : gmap string string) !! "color_space" = None
   /\ color_space (read_metadata ∅) = ""
   /\ color_space (read_metadata ∅) <> "unknown")
  /\ (transfer (read_metadata (<["color_transfer" := "SMPTE2084"]> ∅)) = "SMPTE2084"
      /\ is_lowercase (transfer (read_metadata (<["color_transfer" := "SMPTE2084"]> ∅)))
         = false).
Proof.
  repeat split; try reflexivity. vm_compute. discriminate.
Qed.

(** C2 (amended): the colour space, primaries and pixel format of the
    metadata read from a stream entry are the entry's values in lower case,
    hence without upper-case letters, and the empty string when the entry
    lacks the field; the transfer is ["unknown"] when the entry lacks it. *)
Theorem read_metadata_normalized (info : gmap string string) :
  (is_lowercase (color_space (read_metadata info)) = true
   /\ is_lowercase (primaries (read_metadata info)) = true
   /\ is_lowercase (pix_fmt (read_metadata info)) = true)
  /\ (forall v, info !! "color_space" = Some v ->
        color_space (read_metadata info) = lower v)
  /\ (forall v, info !! "color_primaries" = Some v ->
        primaries (read_metadata info) = lower v)
  /\ (forall v, info !! "pix_fmt" = Some v ->
        pix_fmt (read_metadata info) = lower v)
  /\ (info !! "color_space" = None -> color_space (read_metadata info) = "")
  /\ (info !! "color_primaries" = None -> primaries (read_metadata info) = "")
  /\ (info !! "pix_fmt" = None -> pix_fmt (read_metadata info) = "")
  /\ (info !! "color_transfer" = None -> transfer (read_metadata info) = "unknown").
Proof.
  unfold read_metadata; cbn [transfer color_space primaries pix_fmt].
  rewrite !get_or_empty_default.
  split; [repeat split; apply lower_is_lowercase |].
  unfold get_default.
  repeat split; intros; repeat match goal with H : _ !! _ = _ |- _ => rewrite H end;
    reflexivity.
Qed.

Lemma read_metadata_normalized_witness :
  color_space (read_metadata (<["pix_fmt" := "YUV420P"]> ∅)) = ""
  /\ pix_fmt (read_metadata (<["pix_fmt" := "YUV420P"]> ∅)) = "yuv420p"
  /\ transfer (read_metadata (<["pix_fmt" := "YUV420P"]> ∅)) = "unknown".
Proof.
  destruct (read_metadata_normalized (<["pix_fmt" := "YUV420P"]> ∅))
    as (_ & _ & _ & Hpix & Hcs & _ & _ & Htr).
  split; [apply Hcs; reflexivity |].
  split; [apply (Hpix "YUV420P"); reflexivity | apply Htr; reflexivity].
Defined.

(** C3: when the transfer is neither ["arib-std-b67"] nor ["smpte2084"],
    the classification is [HeuristicHDR] exactly when the primaries or the
    colour space contain ["bt2020"], or the pixel format is in the fixed
    10/12-bit set or contains ["10le"] or ["12le"]; it is [SDR] exactly
    when none of these holds. *)
Theorem classify_heuristic_iff (md : StreamMetadata) :
  transfer md <> "arib-std-b67" ->
  transfer md <> "smpte2084" ->
  (classify md = HeuristicHDR <-> looks_hdr md)
  /\ (classify md = SDR <-> ~ looks_hdr md).
Proof.
  intros Hhlg Hpq. unfold classify.
  rewrite (branch_other _ _ Hhlg Hpq).
  pose proof (is_hdr_looks_hdr md Hhlg Hpq) as Hiff.
  destruct (is_hdr _ _ _ _); intuition (try discriminate; auto).
Qed.

Lemma classify_heuristic_iff_witness :
  (classify {| transfer := "unknown"; color_space := ""; primaries := "bt709";
               pix_fmt := "yuv420p10le" |} = HeuristicHDR
   <-> looks_hdr {| transfer := "unknown"; color_space := ""; primaries := "bt709";
                    pix_fmt := "yuv420p10le" |})
  /\ (classify {| transfer := "unknown"; color_space := ""; primaries := "bt709";
                  pix_fmt := "yuv420p10le" |} = SDR
      <-> ~ looks_hdr {| transfer := "unknown"; color_space := ""; primaries := "bt709";
                         pix_fmt := "yuv420p10le" |}).
Proof.
  apply classify_heuristic_iff; cbn [transfer]; discriminate.
Defined.

(** C4: a transfer of exactly ["arib-std-b67"] is classified [HLG] and one
    of exactly ["smpte2084"] is classified [PQ], whatever the colour space,
    the primaries and the pixel format are. *)
Theorem classify_hlg_pq (cs p pf : string) :
  classify {| transfer := "arib-std-b67"; color_space := cs;
              primaries := p; pix_fmt := pf |} = HLG
  /\ classify {| transfer := "smpte2084"; color_space := cs;
                 primaries := p; pix_fmt := pf |} = PQ.
Proof. split; reflexivity. Qed.

(** C5: the plan of the [HeuristicHDR] branch is the plan of the [PQ]
    branch: the same filter chain, hence the same stages in the same order
    with the same arguments, and the same engine command. *)
Theorem heuristic_plan_is_pq_plan :
  filter_chain HeuristicHDR = filter_chain PQ
  /\ stages (filter_chain HeuristicHDR) = stages (filter_chain PQ)
  /\ forall input_path output_path,
       ffmpeg_command input_path (filter_chain HeuristicHDR) output_path
       = ffmpeg_command input_path (filter_chain PQ) output_path.
Proof. repeat split. Qed.

(** C6: the metadata of scenario 1 is classified [PQ], and its plan is, in
    order, a stage forcing a 10-bit pixel format, a linearize stage with
    nominal peak luminance 100, the float working format, the primaries
    re-mapping, a Hable tone-map stage with desaturation 0, and the
    conversion to BT.709 followed by the planar 8-bit format [yuv420p]. *)
Theorem scenario_pq_plan :
  read_metadata pq_info = pq_metadata
  /\ classify pq_metadata = PQ
  /\ stages (filter_chain (classify pq_metadata))
     = [force_10bit; linearize; float_format; remap_primaries;
        tonemap_hable; to_bt709; planar_8bit]
  /\ sublist [force_10bit; linearize; tonemap_hable; to_bt709; planar_8bit]
             (stages (filter_chain (classify pq_metadata))).
Proof.
  split; [reflexivity |]. split; [reflexivity |].
  split; [reflexivity |].
  change (stages (filter_chain (classify pq_metadata)))
    with [force_10bit; linearize; float_format; remap_primaries;
          tonemap_hable; to_bt709; planar_8bit].
  repeat first [apply sublist_nil | apply sublist_skip | apply sublist_cons].
Qed.

(** ** Running programs *)

Section Running.

Lemma bind_run {A B} (m : Py A) (k : A -> Py B) (s : Proc) :
  (m ≫= k) s
  = match m s with
    | (Returned a, s') => k a s'
    | (Exited c, s') => (Exited c, s')
    end.
Proof. reflexivity. Qed.

Lemma print_run (line : string) (s : Proc) :
  print line s
  = (Returned tt, {| stdout := stdout s ++ [line];
                     engine_runs := engine_runs s;
                     made_dirs := made_dirs s |}).
Proof. reflexivity. Qed.

(** A loop of prints adds its lines and nothing else. *)
Lemma for_each_print (f : string -> string) (l : list string) (s : Proc) :
  for_each l (fun x => print (f x)) s
  = (Returned tt, {| stdout := stdout s ++ map f l;
                     engine_runs := engine_runs s;
                     made_dirs := made_dirs s |}).
Proof.
  revert s. induction l as [|x l IH]; intros s; cbn [for_each map].
  - rewrite app_nil_r. destruct s; reflexivity.
  - rewrite bind_run, print_run, IH. cbn [stdout engine_runs made_dirs].
    rewrite <- app_assoc. reflexivity.
Qed.

End Running.

(** Runs the binds and prints at the head of a goal. *)
Ltac py_run :=
  repeat first
    [ rewrite bind_run
    | rewrite print_run
    | progress cbn [mret Py_ret stdout engine_runs made_dirs option_list
                    option_rect bool_decide]
    | progress unfold sys_exit ].

(** ** The verifier *)

Section Verifier.

Variable w : World.

(** [check_file] always returns: it never raises and never exits. *)
Lemma check_file_run (f : string) (s : Proc) :
  check_file w f s
  = (Returned (verdict w f),
     {| stdout := stdout s ++ check_file_lines w f;
        engine_runs := engine_runs s;
        made_dirs := made_dirs s |}).
Proof.
  unfold check_file, verdict, check_file_lines.
  rewrite bind_run, print_run.
  destruct (get_metadata w f) as [e|data].
  - rewrite bind_run, print_run. cbn [stdout engine_runs made_dirs].
    rewrite <- app_assoc. reflexivity.
  - destruct (collect_errors data expected) as [|err errs].
    + rewrite bind_run, print_run. cbn [stdout engine_runs made_dirs].
      rewrite <- app_assoc. reflexivity.
    + rewrite bind_run, print_run, bind_run, for_each_print.
      cbn [stdout engine_runs made_dirs].
      rewrite <- !app_assoc. reflexivity.
Qed.

Lemma check_file_verdict (f : string) :
  (run (check_file w f)).1 = Returned (verdict w f).
Proof. unfold run. rewrite check_file_run. reflexivity. Qed.

(** The loop of [main] checks every file and returns the conjunction of
    the verdicts with the flag it started from. *)
Lemma check_all_run (files : list string) (acc : bool) (s : Proc) :
  check_all w files acc s
  = (Returned (acc && forallb (verdict w) files),
     {| stdout := stdout s ++ concat (map (check_file_lines w) files);
        engine_runs := engine_runs s;
        made_dirs := made_dirs s |}).
Proof.
  revert acc s. induction files as [|f files IH]; intros acc s;
    cbn [check_all map concat forallb].
  - rewrite andb_true_r, app_nil_r. destruct s; reflexivity.
  - rewrite bind_run, check_file_run, IH. cbn [stdout engine_runs made_dirs].
    rewrite <- app_assoc. f_equal. f_equal.
    destruct (verdict w f), acc; reflexivity.
Qed.

(** A field equals its target exactly when the entry binds it to the
    target: the sentinel is none of the targets. *)
Lemma get_default_expected (data : gmap string string) (key e : string) :
  In (key, e) expected ->
  (get_default data key "unknown" = e <-> data !! key = Some e).
Proof.
  intros Hin. unfold get_default.
  destruct (data !! key) as [v|].
  - split; congruence.
  - split; [|discriminate].
    intros <-. exfalso. cbn in Hin.
    repeat (destruct Hin as [Hin|Hin]; [discriminate Hin|]). exact Hin.
Qed.

End Verifier.

Section VerifierFields.

Variable data : gmap string string.

(** The entries of [errors] naming a field: none when the field has its
    target value, otherwise the one entry with the expected and the
    actual value. *)
Lemma errors_for_field (key e : string) :
  In (key, e) expected ->
  List.filter (names_field key) (collect_errors data expected)
  = if get_default data key "unknown" =? e then []
    else [mismatch_text key e (get_default data key "unknown")].
Proof.
  intros Hin. unfold expected in *. cbn [collect_errors].
  cbn [In] in Hin.
  destruct Hin as [Hin|[Hin|[Hin|[Hin|[]]]]]; inversion Hin; subst key e; clear Hin;
    generalize (get_default data "pix_fmt" "unknown") as a1;
    generalize (get_default data "color_space" "unknown") as a2;
    generalize (get_default data "color_primaries" "unknown") as a3;
    generalize (get_default data "color_transfer" "unknown") as a4;
    intros a4 a3 a2 a1;
    destruct (a1 =? "yuv420p"), (a2 =? "bt709"), (a3 =? "bt709"), (a4 =? "bt709");
    reflexivity.
Qed.

Lemma no_errors_iff :
  collect_errors data expected = []
  <-> Forall (fun '(key, e) => get_default data key "unknown" = e) expected.
Proof.
  unfold expected. cbn [collect_errors].
  rewrite !Forall_cons, Forall_nil.
  destruct (get_default data "pix_fmt" "unknown" =? "yuv420p") eqn:E1;
    destruct (get_default data "color_space" "unknown" =? "bt709") eqn:E2;
    destruct (get_default data "color_primaries" "unknown" =? "bt709") eqn:E3;
    destruct (get_default data "color_transfer" "unknown" =? "bt709") eqn:E4;
    cbn [negb];
    repeat match goal with
           | H : (_ =? _) = true |- _ => apply String.eqb_eq in H
           | H : (_ =? _) = false |- _ => apply String.eqb_neq in H
           end;
    split; intros H; try discriminate H; try tauto.
Qed.

End VerifierFields.

(** C7: [check_file] passes a file exactly when its metadata could be read
    and the four fields have the target values [yuv420p], [bt709], [bt709],
    [bt709]; for each of the four fields the entries of [errors] naming it
    are none when the field has its target value and exactly one, giving
    the expected and the actual value, when it differs; and the file passes
    exactly when [errors] is empty. *)
Theorem check_file_passes_iff (w : World) (f : string) :
  ((run (check_file w f)).1 = Returned true
   <-> exists data,
         get_metadata w f = inr data
         /\ data !! "pix_fmt" = Some "yuv420p"
         /\ data !! "color_space" = Some "bt709"
         /\ data !! "color_primaries" = Some "bt709"
         /\ data !! "color_transfer" = Some "bt709")
  /\ (forall data,
        get_metadata w f = inr data ->
        (forall key e, In (key, e) expected ->
           List.filter (names_field key) (collect_errors data expected)
           = if get_default data key "unknown" =? e then []
             else [mismatch_text key e (get_default data key "unknown")])
        /\ ((run (check_file w f)).1 = Returned true
            <-> collect_errors data expected = [])).
Proof.
  assert (forall data, get_metadata w f = inr data ->
            ((run (check_file w f)).1 = Returned true
             <-> collect_errors data expected = [])) as Hpass.
  { intros data Hdata. rewrite check_file_verdict. unfold verdict. rewrite Hdata.
    destruct (collect_errors data expected); split; congruence. }
  split.
  - split.
    + intros Htrue. destruct (get_metadata w f) as [e|data] eqn:Hdata.
      * rewrite check_file_verdict in Htrue. unfold verdict in Htrue.
        rewrite Hdata in Htrue. discriminate Htrue.
      * exists data. split; [reflexivity |].
        apply (Hpass data eq_refl), no_errors_iff in Htrue. unfold expected in Htrue.
        rewrite !Forall_cons, Forall_nil in Htrue.
        rewrite !get_default_expected in Htrue by (cbn; tauto). tauto.
    + intros (data & Hdata & H1 & H2 & H3 & H4).
      apply (Hpass data Hdata), no_errors_iff. unfold expected.
      rewrite !Forall_cons, Forall_nil.
      rewrite !get_default_expected by (cbn; tauto). tauto.
  - intros data Hdata. split; [apply errors_for_field | exact (Hpass data Hdata)].
Qed.

Lemma check_file_passes_iff_witness :
  List.filter (names_field "color_primaries")
              (collect_errors no_primaries_info expected)
  = [mismatch_text "color_primaries" "bt709" "unknown"].
Proof.
  refine (proj1 (proj2 (check_file_passes_iff verify_world "outputs/b_normalized.mp4")
                   no_primaries_info _)
            "color_primaries" "bt709" _).
  - reflexivity.
  - right; right; left; reflexivity.
Defined.

(** Scenario 3: a conforming output passes without any mismatch entry. *)
Example scenario_verification :
  (run (check_file verify_world "outputs/a_normalized.mp4")).1 = Returned true
  /\ collect_errors target_info expected = []
  /\ collect_errors no_primaries_info expected
     = ["color_primaries: expected 'bt709', got 'unknown'"].
Proof. repeat split. Qed.

(** C10: when the stream entry read by the verifier lacks one of the four
    checked fields, the actual value used for it is ["unknown"], [errors]
    gets exactly one entry for that field, the entry is printed, and
    [check_file] returns [False]: it neither raises nor passes. *)
Theorem missing_field_fails (w : World) (f : string) (data : gmap string string)
    (key e : string) :
  get_metadata w f = inr data ->
  In (key, e) expected ->
  data !! key = None ->
  get_default data key "unknown" = "unknown"
  /\ List.filter (names_field key) (collect_errors data expected)
     = [mismatch_text key e "unknown"]
  /\ In ("   - " +:+ mismatch_text key e "unknown") (stdout (run (check_file w f)).2)
  /\ (run (check_file w f)).1 = Returned false.
Proof.
  intros Hdata Hin Hnone.
  assert (get_default data key "unknown" = "unknown") as Hget.
  { unfold get_default. rewrite Hnone. reflexivity. }
  assert (List.filter (names_field key) (collect_errors data expected)
          = [mismatch_text key e "unknown"]) as Hone.
  { rewrite (errors_for_field data key e Hin), Hget.
    cbn in Hin.
    destruct Hin as [Hin|[Hin|[Hin|[Hin|[]]]]]; inversion Hin; reflexivity. }
  assert (In (mismatch_text key e "unknown") (collect_errors data expected)) as Hmem.
  { eapply proj1. apply filter_In. rewrite Hone. left. reflexivity. }
  split; [exact Hget |]. split; [exact Hone |].
  unfold run. rewrite check_file_run. cbn [fst snd stdout].
  unfold verdict, check_file_lines. rewrite Hdata.
  destruct (collect_errors data expected) as [|err errs]; [destruct Hmem |].
  split; [|reflexivity].
  right. right. apply (in_map (fun err => "   - " +:+ err)) in Hmem. exact Hmem.
Qed.

Lemma missing_field_fails_witness :
  get_default no_primaries_info "color_primaries" "unknown" = "unknown"
  /\ List.filter (names_field "color_primaries")
                 (collect_errors no_primaries_info expected)
     = [mismatch_text "color_primaries" "bt709" "unknown"]
  /\ In ("   - " +:+ mismatch_text "color_primaries" "bt709" "unknown")
        (stdout (run (check_file verify_world "outputs/b_normalized.mp4")).2)
  /\ (run (check_file verify_world "outputs/b_normalized.mp4")).1 = Returned false.
Proof.
  apply (missing_field_fails verify_world "outputs/b_normalized.mp4"
           no_primaries_info "color_primaries" "bt709").
  - reflexivity.
  - right; right; left; reflexivity.
  - reflexivity.
Defined.

Section VerifierMain.

Variable w : World.

Lemma verify_main_run :
  run (verify_main w)
  = match glob_outputs w with
    | [] =>
        (Exited 1%Z, {| stdout := [no_files_message];
                      engine_runs := []; made_dirs := [] |})
    | files =>
        (Exited (if forallb (verdict w) files then 0%Z else 1%Z),
         {| stdout := concat (map (check_file_lines w) files)
                      ++ [if forallb (verdict w) files
                          then all_passed_message else some_failed_message];
            engine_runs := []; made_dirs := [] |})
    end.
Proof.
  unfold run, verify_main.
  destruct (glob_outputs w) as [|f files]; [reflexivity |].
  rewrite bind_run, check_all_run. cbn [andb stdout engine_runs made_dirs start].
  destruct (forallb (verdict w) (f :: files)); reflexivity.
Qed.

(** No line printed while checking a file is the no-files message. *)
Lemma check_file_lines_not_no_files (f : string) :
  ~ In no_files_message (check_file_lines w f).
Proof.
  unfold check_file_lines.
  assert (forall l : list string,
             (forall x, In x l -> String.prefix "N" x = false) ->
             ~ In no_files_message l) as Hpre.
  { intros l Hl Hin. apply Hl in Hin. discriminate Hin. }
  apply Hpre. intros x [<-|Hx]; [reflexivity |].
  destruct (get_metadata w f) as [e|data].
  - destruct Hx as [<-|[]]. reflexivity.
  - destruct (collect_errors data expected) as [|err errs].
    + destruct Hx as [<-|[]]. reflexivity.
    + destruct Hx as [<-|Hx]; [reflexivity |].
      apply in_map_iff in Hx as [y [<- _]]. reflexivity.
Qed.

End VerifierMain.

(** C8: the verifier exits with code 0 exactly when at least one output
    file was found and [check_file] returned [True] for every file found,
    and with code 1 otherwise.  With no file found it prints only the
    no-files message; with a failing file it ends on the some-failed
    message and never prints the no-files message; the two messages
    differ. *)
Theorem verify_main_exit (w : World) :
  (exit_code (run (verify_main w)).1 = 0%Z
   <-> glob_outputs w <> []
       /\ Forall (fun f => (run (check_file w f)).1 = Returned true) (glob_outputs w))
  /\ (exit_code (run (verify_main w)).1 = 0%Z \/ exit_code (run (verify_main w)).1 = 1%Z)
  /\ (glob_outputs w = [] ->
        exit_code (run (verify_main w)).1 = 1%Z
        /\ stdout (run (verify_main w)).2 = [no_files_message])
  /\ (glob_outputs w <> [] ->
        exit_code (run (verify_main w)).1 = 1%Z ->
        last (stdout (run (verify_main w)).2) = Some some_failed_message
        /\ ~ In no_files_message (stdout (run (verify_main w)).2))
  /\ no_files_message <> some_failed_message.
Proof.
  rewrite verify_main_run.
  assert (forall files,
             forallb (verdict w) files = true
             <-> Forall (fun f => (run (check_file w f)).1 = Returned true) files)
    as Hall.
  { intros files. rewrite forallb_forall, Forall_forall.
    split; intros H f Hf.
    - rewrite check_file_verdict, H; [reflexivity | apply list_elem_of_In, Hf].
    - apply list_elem_of_In, H in Hf. rewrite check_file_verdict in Hf. congruence. }
  destruct (glob_outputs w) as [|f files] eqn:Hglob.
  - cbn [fst snd exit_code stdout].
    repeat split; try tauto; try discriminate; auto.
  - specialize (Hall (f :: files)). cbv beta iota zeta.
    destruct (forallb (verdict w) (f :: files)) eqn:Hv; cbn [fst snd exit_code stdout].
    + split; [|split; [|split; [|split]]]; try discriminate; auto.
      split; [intros _ | reflexivity].
      split; [discriminate | apply Hall; reflexivity].
    + split; [|split; [|split; [|split]]]; try discriminate; auto.
      * split; [discriminate |].
        intros [_ Hf]. apply Hall in Hf. discriminate Hf.
      * intros _ _. split; [apply last_snoc |].
        intros Hin. apply in_app_or in Hin as [Hin|[Hin|[]]]; [|discriminate Hin].
        apply in_concat in Hin as [l [Hl Hin]].
        apply in_map_iff in Hl as [g [<- _]].
        exact (check_file_lines_not_no_files w g Hin).
Qed.

Lemma verify_main_exit_witness :
  exit_code (run (verify_main empty_outputs)).1 = 1%Z
  /\ stdout (run (verify_main empty_outputs)).2 = [no_files_message].
Proof.
  apply (verify_main_exit empty_outputs). reflexivity.
Defined.

(** A run over a passing, a failing and an unreadable file: all three are
    checked and the exit code is 1. *)
Example verify_run :
  run (verify_main verify_world)
  = (Exited 1%Z,
     {| stdout :=
          [ "🔍 Verifying: a_normalized.mp4..."; "✅ PASS";
            "🔍 Verifying: b_normalized.mp4..."; "❌ FAIL";
            "   - color_primaries: expected 'bt709', got 'unknown'";
            "🔍 Verifying: c_normalized.mp4...";
            "❌ ERROR: Could not read metadata. non-zero exit status 1";
            some_failed_message ];
        engine_runs := []; made_dirs := [] |}).
Proof. vm_compute. reflexivity. Qed.

(** ** The batch driver *)

Section Batch.

Variable w : World.

Lemma process_single_file_run (i o : string) (s : Proc) :
  process_single_file w i o s
  = (if stops_run w i o then Exited 1%Z else Returned tt,
     {| stdout := stdout s ++ process_lines w i o;
        engine_runs := engine_runs s ++ option_list (engine_command w i o);
        made_dirs := made_dirs s |}).
Proof.
  unfold process_single_file, stops_run, decode_fails, probe_fails,
    engine_command, process_lines, stream_of, decode.
  destruct (path_exists w i); cbn [negb andb orb].
  - unfold build_ffmpeg_command, get_video_info, classify.
    destruct (first_stream (ffprobe w i)) as [e|info].
    + py_run. rewrite <- app_assoc, app_nil_r. reflexivity.
    + py_run. unfold run_engine. cbn [orb].
      destruct (ffmpeg w _) as [stderr|];
        [destruct (utf8_valid stderr); cbn [negb] |];
        py_run; unfold uncaught; rewrite <- ?app_assoc, ?app_nil_r;
        reflexivity.
  - rewrite print_run, app_nil_r. reflexivity.
Qed.

(** The batch loop stops with exit code 1 at the first entry that ends the
    run and otherwise goes through every entry. *)
Lemma batch_loop_run (src dst : string -> string) (files : list string)
    (s : Proc) :
  for_each files (fun f => process_single_file w (src f) (dst f)) s
  = (if existsb (fun f => stops_run w (src f) (dst f)) files
     then Exited 1%Z else Returned tt,
     {| stdout :=
          stdout s
          ++ concat (map (fun f => process_lines w (src f) (dst f))
                         (reached (fun f => stops_run w (src f) (dst f)) files));
        engine_runs :=
          engine_runs s
          ++ concat (map (fun f => option_list (engine_command w (src f) (dst f)))
                         (reached (fun f => stops_run w (src f) (dst f)) files));
        made_dirs := made_dirs s |}).
Proof.
  revert s. induction files as [|f files IH]; intros s;
    cbn [for_each existsb reached map concat].
  - rewrite !app_nil_r. destruct s; reflexivity.
  - rewrite bind_run, process_single_file_run.
    destruct (stops_run w (src f) (dst f)); cbn [orb map concat].
    + rewrite !app_nil_r. reflexivity.
    + rewrite IH. cbn [stdout engine_runs made_dirs].
      rewrite <- !app_assoc. reflexivity.
Qed.


(** [main] on a directory. *)
Lemma main_directory_run (d o : string) :
  is_dir w d = true ->
  run (main w d o)
  = match video_files w d with
    | [] =>
        (Returned tt,
         {| stdout := [ "📁 Batch mode detected. Scanning " +:+ d +:+ "...";
                        "No video files found in input directory." ];
            engine_runs := [];
            made_dirs := if negb (path_exists w o) then [o] else [] |})
    | f :: files =>
        (if existsb (batch_stop w d o) (f :: files)
         then Exited 1%Z else Returned tt,
         {| stdout :=
              ("📁 Batch mode detected. Scanning " +:+ d +:+ "...") ::
              concat (map (fun g => process_lines w (PyPath.join d g)
                                      (PyPath.join o (new_filename g)))
                          (reached (batch_stop w d o) (f :: files)));
            engine_runs :=
              concat (map (fun g => option_list
                                      (engine_command w (PyPath.join d g)
                                         (PyPath.join o (new_filename g))))
                          (reached (batch_stop w d o) (f :: files)));
            made_dirs := if negb (path_exists w o) then [o] else [] |})
    end.
Proof.
  intros Hdir. unfold run, main. rewrite Hdir.
  rewrite bind_run.
  assert ((if negb (path_exists w o) then makedirs o else mret tt) start
          = (Returned tt,
             {| stdout := []; engine_runs := [];
                made_dirs := if negb (path_exists w o) then [o] else [] |}))
    as ->.
  { destruct (path_exists w o); reflexivity. }
  rewrite bind_run, print_run. cbn [stdout engine_runs made_dirs app].
  destruct (video_files w d) as [|f files]; [reflexivity |].
  rewrite (batch_loop_run (PyPath.join d)
             (fun g => PyPath.join o (new_filename g))).
  reflexivity.
Qed.

End Batch.

(** ** Stem and suffix *)

Section StemSuffix.

Lemma substring_split (s : string) (i : nat) :
  i <= String.length s ->
  String.substring 0 i s +:+ String.substring i (String.length s - i) s = s.
Proof.
  revert i. induction s as [|c s IH]; intros i Hi.
  - destruct i; reflexivity.
  - destruct i as [|i].
    + cbn [String.substring]. rewrite append_empty.
      change (String.length (String c s) - 0) with (S (String.length s)).
      cbn [String.substring]. f_equal.
      specialize (IH 0 ltac:(lia)).
      rewrite Nat.sub_0_r in IH.
      destruct s; [reflexivity |]. exact IH.
    + cbn [String.length] in Hi.
      change (String.length (String c s) - S i) with (String.length s - i).
      cbn [String.substring]. rewrite append_cons. f_equal.
      apply IH. lia.
Qed.

Lemma rfind_dot_bound (s : string) (i : nat) :
  PyPath.rfind_dot s = Some i -> i < String.length s.
Proof.
  revert i. induction s as [|c s IH]; intros i; cbn [PyPath.rfind_dot String.length].
  - discriminate.
  - destruct (PyPath.rfind_dot s) as [j|].
    + intros [= <-]. specialize (IH j eq_refl). lia.
    + destruct (Ascii.eqb c "."); [intros [= <-]; lia | discriminate].
Qed.

(** The name is its stem followed by its suffix. *)
Lemma stem_suffix (name : string) :
  PyPath.stem name +:+ PyPath.suffix name = name.
Proof.
  unfold PyPath.stem, PyPath.suffix.
  destruct (PyPath.rfind_dot name) as [i|] eqn:Hdot.
  - destruct ((0 <? i)%nat && (i <? String.length name - 1)%nat).
    + apply substring_split. apply rfind_dot_bound in Hdot. lia.
    + clear. induction name as [|c s IH]; [reflexivity |].
      rewrite append_cons. f_equal. exact IH.
  - clear. induction name as [|c s IH]; [reflexivity |].
    rewrite append_cons. f_equal. exact IH.
Qed.

End StemSuffix.

(** C1: the code on a batch of [bad.mp4] and [good.mp4] where the probe
    fails on [bad.mp4] and would succeed on [good.mp4].  The failure is not
    contained to [bad.mp4]: [get_video_info] leaves through [sys.exit(1)],
    the run ends with exit status 1 right after the probe error, and
    [good.mp4] is never processed, the engine not being run at all. *)
Lemma probe_failure_aborts_batch :
  video_files failing_batch "in" = ["bad.mp4"; "good.mp4"]
  /\ stream_of failing_batch "in/good.mp4" = Some pq_info
  /\ run (main failing_batch "in" "out")
     = (Exited 1%Z,
        {| stdout :=
             [ "📁 Batch mode detected. Scanning in...";
               "Processing: in/bad.mp4 -> out/bad_normalized.mp4";
               "Error probing file in/bad.mp4: non-zero exit status 1" ];
           engine_runs := [];
           made_dirs := [] |})
  /\ exit_code (run (main failing_batch "in" "out")).1 <> 0%Z.
Proof.
  split; [reflexivity |]. split; [reflexivity |].
  split; [vm_compute; reflexivity |]. vm_compute. discriminate.
Qed.

Section Selection.

Variable w : World.



Lemma video_files_In (d f : string) :
  In f (video_files w d)
  <-> In f (iterdir w d) /\ In (lower (PyPath.suffix f)) supported_ext.
Proof.
  unfold video_files.
  rewrite <- (list_elem_of_In (filter _ _)), list_elem_of_filter.
  rewrite list_elem_of_In, mem_In. tauto.
Qed.

End Selection.




(** An engine failure whose error stream cannot be decoded ends the batch:
    the handler raises while it formats its message, the run ends with
    status 1, and [b.mp4] is never processed. *)
Example undecodable_stderr_ends_batch :
  utf8_valid bad_stderr = false
  /\ run (main undecodable_batch "in" "out")
     = (Exited 1%Z,
        {| stdout :=
             [ "📁 Batch mode detected. Scanning in...";
               "Processing: in/a.mp4 -> out/a_normalized.mp4";
               "Detected Transfer Function: bt709";
               "-> Type: SDR. Applying normalization only." ];
           engine_runs :=
             [ffmpeg_command "in/a.mp4" (filter_chain SDR) "out/a_normalized.mp4"];
           made_dirs := [] |}).
Proof. split; vm_compute; reflexivity. Qed.

(** The decoder on well-formed text, a stray byte, an overlong form, a
    surrogate and a truncated sequence. *)
Example utf8_valid_cases :
  utf8_valid "❌ Error encoding: é ✨ 📁" = true
  /\ utf8_valid (String (ascii_of_nat 255) "") = false
  /\ utf8_valid (String (ascii_of_nat 192) (String (ascii_of_nat 128) "")) = false
  /\ utf8_valid (String (ascii_of_nat 237)
                   (String (ascii_of_nat 160) (String (ascii_of_nat 128) ""))) = false
  /\ utf8_valid (String (ascii_of_nat 226) (String (ascii_of_nat 156) "")) = false.
Proof. repeat split. Qed.

(** Scenario 2: of [a.mp4], [b.mov] and [readme.txt] the batch keeps the
    first two and names their outputs [a_normalized.mp4] and
    [b_normalized.mov]; the failure of the engine on [b.mov] is reported
    and the run still returns. *)
Example scenario_directory_batch :
  video_files scenario_batch "in" = ["a.mp4"; "b.mov"]
  /\ map new_filename (video_files scenario_batch "in")
     = ["a_normalized.mp4"; "b_normalized.mov"]
  /\ run (main scenario_batch "in" "out")
     = (Returned tt,
        {| stdout :=
             [ "📁 Batch mode detected. Scanning in...";
               "Processing: in/a.mp4 -> out/a_normalized.mp4";
               "Detected Transfer Function: smpte2084";
               "-> Type: HDR (PQ). Applying PQ to SDR tone mapping (Hable).";
               "✅ Done: a_normalized.mp4";
               "Processing: in/b.mov -> out/b_normalized.mov";
               "Detected Transfer Function: smpte2084";
               "-> Type: HDR (PQ). Applying PQ to SDR tone mapping (Hable).";
               "❌ Error encoding in/b.mov: encode failed" ];
           engine_runs :=
             [ ffmpeg_command "in/a.mp4" (filter_chain PQ) "out/a_normalized.mp4";
               ffmpeg_command "in/b.mov" (filter_chain PQ) "out/b_normalized.mov" ];
           made_dirs := [] |}).
Proof.
  split; [reflexivity |]. split; [reflexivity |]. vm_compute. reflexivity.
Qed.


(** * Further properties of the code *)

(** ** Classification and plan *)

Section PlanFacts.

Lemma is_hdr_excludes_labelled (t cs p pf : string) :
  is_hdr t cs p pf = true -> t <> "arib-std-b67" /\ t <> "smpte2084".
Proof.
  unfold is_hdr. intros H. apply andb_true_iff in H as [H _].
  apply negb_true_iff in H.
  split; intros ->; cbn in H; discriminate H.
Qed.

End PlanFacts.

(** X1: the third branch of the chain is taken exactly when [is_hdr]
    answers [True]: the first two tests never take a stream away from it,
    because [is_hdr] itself rejects the two labelled transfers. *)
Theorem heuristic_iff_is_hdr (md : StreamMetadata) :
  classify md = HeuristicHDR
  <-> is_hdr (transfer md) (color_space md) (primaries md) (pix_fmt md) = true.
Proof.
  unfold classify. split.
  - unfold branch.
    destruct (transfer md =? "arib-std-b67"); [discriminate |].
    destruct (transfer md =? "smpte2084"); [discriminate |].
    destruct (is_hdr _ _ _ _); [reflexivity | discriminate].
  - intros H. destruct (is_hdr_excludes_labelled _ _ _ _ H) as [Hhlg Hpq].
    rewrite (branch_other _ _ Hhlg Hpq), H. reflexivity.
Qed.

(** X2: the filter chain chosen for a stream has a tone-mapping stage
    exactly when the transfer is one of the two labelled HDR transfers or
    the stream shows one of the HDR signs; every other stream gets the
    chain without tone mapping. *)
Theorem tonemap_iff_hdr (md : StreamMetadata) :
  has_tonemap (filter_chain (classify md)) = true
  <-> transfer md = "arib-std-b67"
      \/ transfer md = "smpte2084"
      \/ looks_hdr md.
Proof.
  unfold classify, branch.
  destruct (transfer md =? "arib-std-b67") eqn:Ehlg.
  { apply String.eqb_eq in Ehlg. split; [intros _; left; exact Ehlg | reflexivity]. }
  destruct (transfer md =? "smpte2084") eqn:Epq.
  { apply String.eqb_eq in Epq.
    split; [intros _; right; left; exact Epq | reflexivity]. }
  apply String.eqb_neq in Ehlg. apply String.eqb_neq in Epq.
  pose proof (is_hdr_looks_hdr md Ehlg Epq) as Hiff.
  destruct (is_hdr _ _ _ _).
  - split; [intros _; right; right; apply Hiff; reflexivity | reflexivity].
  - split; [discriminate |].
    intros [H|[H|H]]; [congruence | congruence |].
    apply Hiff in H. discriminate H.
Qed.

(** X3: a file that passes the verifier is classified [SDR] by the
    normaliser: normalising a conforming output again applies the plain
    normalisation chain, without tone mapping. *)
Theorem verified_is_sdr (w : World) (f : string) (data : gmap string string) :
  get_metadata w f = inr data ->
  (run (check_file w f)).1 = Returned true ->
  classify (read_metadata data) = SDR
  /\ has_tonemap (filter_chain (classify (read_metadata data))) = false.
Proof.
  intros Hdata Hpass.
  rewrite check_file_verdict in Hpass. unfold verdict in Hpass.
  rewrite Hdata in Hpass.
  assert (collect_errors data expected = []) as Hnone.
  { destruct (collect_errors data expected); [reflexivity | discriminate]. }
  apply no_errors_iff in Hnone. unfold expected in Hnone.
  rewrite !Forall_cons, Forall_nil in Hnone.
  rewrite !get_default_expected in Hnone by (cbn; tauto).
  destruct Hnone as (Hpf & Hcs & Hpr & Htr & _).
  assert (read_metadata data
          = {| transfer := "bt709"; color_space := "bt709";
               primaries := "bt709"; pix_fmt := "yuv420p" |}) as ->.
  { unfold read_metadata, get_default, get_or_empty.
    rewrite Hpf, Hcs, Hpr, Htr. reflexivity. }
  split; reflexivity.
Qed.

Lemma verified_is_sdr_witness :
  classify (read_metadata target_info) = SDR
  /\ has_tonemap (filter_chain (classify (read_metadata target_info))) = false.
Proof.
  apply (verified_is_sdr verify_world "outputs/a_normalized.mp4" target_info).
  - reflexivity.
  - reflexivity.
Defined.

(** ** The three modes of [main] *)

Section Modes.

Variable w : World.

(** [main] on a single file. *)
Lemma main_file_run (i o : string) :
  is_dir w i = false ->
  is_file w i = true ->
  run (main w i o)
  = (if stops_run w i o then Exited 1%Z else Returned tt,
     {| stdout := process_lines w i o;
        engine_runs := option_list (engine_command w i o);
        made_dirs :=
          if PyStr.truthy (PyPath.parent_name o)
             && negb (path_exists w (PyPath.parent o))
          then [PyPath.parent o] else [] |}).
Proof.
  intros Hdir Hfile. unfold run, main. rewrite Hdir, Hfile. rewrite bind_run.
  destruct (PyStr.truthy (PyPath.parent_name o)
            && negb (path_exists w (PyPath.parent o)));
    unfold makedirs, mret, Py_ret; cbv beta iota;
    rewrite process_single_file_run; reflexivity.
Qed.

(** [main] on a path that is neither a directory nor a file. *)
Lemma main_invalid_run (i o : string) :
  is_dir w i = false ->
  is_file w i = false ->
  run (main w i o)
  = (Exited 1%Z,
     {| stdout := ["Error: Input path is invalid."];
        engine_runs := []; made_dirs := [] |}).
Proof.
  intros Hdir Hfile. unfold run, main. rewrite Hdir, Hfile. reflexivity.
Qed.

Lemma reached_In (stop : string -> bool) (files : list string) (f : string) :
  In f (reached stop files) -> In f files.
Proof.
  induction files as [|g files IH]; cbn [reached]; [tauto |].
  intros [->|Hin]; [left; reflexivity |].
  right. destruct (stop g); [destruct Hin | exact (IH Hin)].
Qed.


(** A command [process_single_file] hands to the engine is for an input
    that exists and was probed. *)
Lemma engine_command_Some (i o : string) (cmd : list string) :
  engine_command w i o = Some cmd ->
  exists info,
    path_exists w i = true
    /\ stream_of w i = Some info
    /\ cmd = ffmpeg_command i (filter_chain (classify (read_metadata info))) o.
Proof.
  unfold engine_command. destruct (path_exists w i); [|discriminate].
  destruct (stream_of w i) as [info|]; [|discriminate].
  intros [= <-]. exists info. repeat split.
Qed.

Lemma In_concat_option_list {A B} (g : A -> option B) (l : list A) (y : B) :
  In y (concat (map (fun x => option_list (g x)) l))
  <-> exists x, In x l /\ g x = Some y.
Proof.
  rewrite in_concat. split.
  - intros [ys [Hys Hy]]. apply in_map_iff in Hys as [x [<- Hx]].
    exists x. split; [exact Hx |].
    destruct (g x) as [z|]; [|destruct Hy].
    destruct Hy as [->|[]]. reflexivity.
  - intros [x [Hx Hg]]. exists (option_list (g x)). split.
    + apply in_map_iff. exists x. split; [reflexivity | exact Hx].
    + rewrite Hg. left. reflexivity.
Qed.

End Modes.


(** X5: on an existing single file that can be probed, the normaliser runs
    the engine exactly once, on the command built for the input and the
    given output path.  When the engine succeeds, or fails with an error
    stream that can be decoded, the run returns with exit status 0 and its
    last line is the success line or the engine's error text; when the
    engine fails with an error stream that is not well-formed UTF-8, the
    run ends with exit status 1 and prints nothing after the line of the
    branch taken. *)
Theorem single_file_run (w : World) (i o : string) (info : gmap string string) :
  is_dir w i = false ->
  is_file w i = true ->
  path_exists w i = true ->
  stream_of w i = Some info ->
  engine_runs (run (main w i o)).2
  = [ffmpeg_command i (filter_chain (classify (read_metadata info))) o]
  /\ match ffmpeg w (ffmpeg_command i
                       (filter_chain (classify (read_metadata info))) o) with
     | None =>
         exit_code (run (main w i o)).1 = 0%Z
         /\ last (stdout (run (main w i o)).2)
            = Some ("✅ Done: " +:+ PyPath.basename o)
     | Some stderr =>
         if utf8_valid stderr then
           exit_code (run (main w i o)).1 = 0%Z
           /\ last (stdout (run (main w i o)).2)
              = Some ("❌ Error encoding " +:+ i +:+ ": " +:+ stderr)
         else
           exit_code (run (main w i o)).1 = 1%Z
           /\ last (stdout (run (main w i o)).2)
              = Some (branch_message (classify (read_metadata info)))
     end.
Proof.
  intros Hdir Hfile Hex Hinfo. rewrite (main_file_run w i o Hdir Hfile).
  unfold stops_run, decode_fails, probe_fails, engine_command, process_lines,
    decode.
  rewrite Hex, Hinfo. unfold stream_of in Hinfo.
  destruct (first_stream (ffprobe w i)) as [e|info']; [discriminate |].
  injection Hinfo as ->.
  cbn [andb orb negb bool_decide fst snd exit_code engine_runs stdout option_list
       option_rect].
  split; [reflexivity |].
  destruct (ffmpeg w _) as [stderr|]; [destruct (utf8_valid stderr) |];
    split; reflexivity.
Qed.

Lemma single_file_run_witness :
  engine_runs (run (main single_file_world "in.mp4" "out/x.mp4")).2
  = [ffmpeg_command "in.mp4" (filter_chain (classify (read_metadata pq_info)))
       "out/x.mp4"]
  /\ exit_code (run (main single_file_world "in.mp4" "out/x.mp4")).1 = 0%Z
  /\ last (stdout (run (main single_file_world "in.mp4" "out/x.mp4")).2)
     = Some ("❌ Error encoding " +:+ "in.mp4" +:+ ": " +:+ "encode failed").
Proof.
  exact (single_file_run single_file_world "in.mp4" "out/x.mp4" pq_info
           eq_refl eq_refl eq_refl eq_refl).
Defined.

(** X6: whatever the arguments, every command the normaliser hands to the
    engine is for an input that exists and whose probe gave a stream entry,
    carries the filter chain of that entry's classification, and has the
    fixed encoding parameters of [ffmpeg_command]. *)
Theorem engine_runs_are_planned (w : World) (i o : string) :
  Forall (fun cmd =>
            exists inp out info,
              path_exists w inp = true
              /\ stream_of w inp = Some info
              /\ cmd = ffmpeg_command inp
                         (filter_chain (classify (read_metadata info))) out)
         (engine_runs (run (main w i o)).2).
Proof.
  apply Forall_forall. intros cmd Hin. apply list_elem_of_In in Hin.
  destruct (is_dir w i) eqn:Hdir.
  - rewrite (main_directory_run w i o Hdir) in Hin.
    destruct (video_files w i) as [|f files]; [destruct Hin |].
    cbn [snd engine_runs] in Hin.
    apply (In_concat_option_list
             (fun g => engine_command w (PyPath.join i g)
                         (PyPath.join o (new_filename g)))) in Hin
      as [g [_ Hg]].
    apply engine_command_Some in Hg as [info H]. eauto.
  - destruct (is_file w i) eqn:Hfile.
    + rewrite (main_file_run w i o Hdir Hfile) in Hin. cbn [snd engine_runs] in Hin.
      destruct (engine_command w i o) as [c|] eqn:Hc; [|destruct Hin].
      destruct Hin as [<-|[]].
      apply engine_command_Some in Hc as [info H]. eauto.
    + rewrite (main_invalid_run w i o Hdir Hfile) in Hin. destruct Hin.
Qed.

(** X7: in directory mode the engine is only ever run on kept entries: the
    input of every command is an immediate entry of the input directory
    whose extension in lower case is in the allow-list, and its output is
    that entry's [_normalized] name in the output directory.  This holds
    also for runs cut short by a probe failure. *)
Theorem batch_runs_only_kept (w : World) (d o : string) :
  is_dir w d = true ->
  Forall (fun cmd =>
            exists f chain,
              In f (iterdir w d)
              /\ In (lower (PyPath.suffix f)) supported_ext
              /\ cmd = ffmpeg_command (PyPath.join d f) chain
                         (PyPath.join o (new_filename f)))
         (engine_runs (run (main w d o)).2).
Proof.
  intros Hdir. apply Forall_forall. intros cmd Hin. apply list_elem_of_In in Hin.
  rewrite (main_directory_run w d o Hdir) in Hin.
  destruct (video_files w d) as [|f0 files] eqn:Hfiles; [destruct Hin |].
  cbn [snd engine_runs] in Hin.
  apply (In_concat_option_list
           (fun g => engine_command w (PyPath.join d g)
                       (PyPath.join o (new_filename g)))) in Hin
    as [g [Hg Hcmd]].
  apply reached_In in Hg. rewrite <- Hfiles in Hg.
  apply video_files_In in Hg as [Hg1 Hg2].
  apply engine_command_Some in Hcmd as [info (_ & _ & ->)].
  eauto.
Qed.

Lemma batch_runs_only_kept_witness :
  Forall (fun cmd =>
            exists f chain,
              In f (iterdir failing_batch "in")
              /\ In (lower (PyPath.suffix f)) supported_ext
              /\ cmd = ffmpeg_command (PyPath.join "in" f) chain
                         (PyPath.join "out" (new_filename f)))
         (engine_runs (run (main failing_batch "in" "out")).2).
Proof.
  apply (batch_runs_only_kept failing_batch "in" "out"). reflexivity.
Defined.

(** X8: the normaliser only creates a directory that does not exist: the
    output directory in directory mode and the parent of the output file in
    single-file mode are created when the existence test on them fails, and
    nothing is created otherwise. *)
Theorem makedirs_only_missing (w : World) (i o : string) :
  Forall (fun p => path_exists w p = false) (made_dirs (run (main w i o)).2)
  /\ (is_dir w i = true ->
      made_dirs (run (main w i o)).2
      = if path_exists w o then [] else [o]).
Proof.
  destruct (is_dir w i) eqn:Hdir.
  - rewrite (main_directory_run w i o Hdir).
    destruct (video_files w i); cbn [snd made_dirs];
      destruct (path_exists w o) eqn:Ho; cbn [negb];
      (split; [repeat constructor; exact Ho | reflexivity]).
  - split; [|discriminate].
    destruct (is_file w i) eqn:Hfile.
    + rewrite (main_file_run w i o Hdir Hfile). cbn [snd made_dirs].
      destruct (PyStr.truthy (PyPath.parent_name o)); cbn [andb];
        [|constructor].
      destruct (path_exists w (PyPath.parent o)) eqn:Hp; repeat constructor.
      exact Hp.
    + rewrite (main_invalid_run w i o Hdir Hfile). constructor.
Qed.

Lemma makedirs_only_missing_witness :
  made_dirs (run (main dangling_batch "in" "out")).2
  = if path_exists dangling_batch "out" then [] else ["out"].
Proof.
  apply (makedirs_only_missing dangling_batch "in" "out"). reflexivity.
Defined.

(** ** Failures of the engine and missing inputs *)

Section Containment.

Variable w : World.

Lemma stops_run_decodable (i o : string) :
  decodable_errors (ffmpeg w) -> stops_run w i o = probe_fails w i.
Proof.
  intros Hdec. unfold stops_run, decode_fails.
  destruct (engine_command w i o) as [cmd|]; [|apply orb_false_r].
  destruct (ffmpeg w cmd) as [stderr|] eqn:Hrun; [|apply orb_false_r].
  rewrite (Hdec cmd stderr Hrun). apply orb_false_r.
Qed.

Lemma reached_ext (stop stop' : string -> bool) (files : list string) :
  (forall f, stop f = stop' f) ->
  reached stop files = reached stop' files
  /\ existsb stop files = existsb stop' files.
Proof.
  intros Hext. induction files as [|f files [IH1 IH2]]; cbn [reached existsb].
  - split; reflexivity.
  - rewrite Hext, IH1, IH2. split; reflexivity.
Qed.

End Containment.

(** X9: as long as the engine's failures come with an error stream that
    can be decoded, what the engine returns has no influence on the course
    of a run: with any other such behaviour of the engine, the normaliser
    ends the same way, hands the same commands to the engine in the same
    order and creates the same directories.  Only the printed lines can
    differ. *)
Theorem engine_result_is_contained (w : World)
    (engine : list string -> option string) (i o : string) :
  decodable_errors (ffmpeg w) ->
  decodable_errors engine ->
  control_flow (run (main (with_engine w engine) i o))
  = control_flow (run (main w i o)).
Proof.
  intros Hw He. unfold control_flow.
  assert (forall a b, stops_run (with_engine w engine) a b = stops_run w a b)
    as Hstop.
  { intros a b. rewrite (stops_run_decodable w a b Hw).
    rewrite (stops_run_decodable (with_engine w engine) a b He). reflexivity. }
  destruct (is_dir w i) eqn:Hdir.
  - rewrite (main_directory_run (with_engine w engine) i o Hdir).
    rewrite (main_directory_run w i o Hdir).
    change (video_files (with_engine w engine) i) with (video_files w i).
    destruct (video_files w i) as [|f files]; [reflexivity |].
    cbn [fst snd engine_runs made_dirs].
    destruct (reached_ext (batch_stop (with_engine w engine) i o)
                (batch_stop w i o) (f :: files)) as [-> ->];
      [intros g; apply Hstop | reflexivity].
  - destruct (is_file w i) eqn:Hfile.
    + rewrite (main_file_run (with_engine w engine) i o Hdir Hfile).
      rewrite (main_file_run w i o Hdir Hfile). rewrite Hstop. reflexivity.
    + rewrite (main_invalid_run (with_engine w engine) i o Hdir Hfile).
      rewrite (main_invalid_run w i o Hdir Hfile). reflexivity.
Qed.

Lemma engine_result_is_contained_witness :
  control_flow (run (main (with_engine scenario_batch (fun _ => None)) "in" "out"))
  = control_flow (run (main scenario_batch "in" "out")).
Proof.
  apply (engine_result_is_contained scenario_batch (fun _ => None) "in" "out").
  - intros cmd stderr. cbn [ffmpeg scenario_batch].
    destruct (mem "in/b.mov" cmd); [intros [= <-]; reflexivity | discriminate].
  - intros cmd stderr. discriminate.
Defined.

(** X10: [process_single_file] on an input that does not exist prints the
    not-found line and returns: the file is not probed, the engine is not
    run, nothing is created, and the caller goes on. *)
Theorem missing_input_is_skipped (w : World) (i o : string) (s : Proc) :
  path_exists w i = false ->
  process_single_file w i o s
  = (Returned tt,
     {| stdout := stdout s ++ ["Error: Input " +:+ i +:+ " not found."];
        engine_runs := engine_runs s;
        made_dirs := made_dirs s |}).
Proof.
  intros Hex. rewrite process_single_file_run.
  unfold stops_run, decode_fails, probe_fails, process_lines, engine_command.
  rewrite Hex.
  cbn [andb orb negb option_list option_rect]. rewrite app_nil_r. reflexivity.
Qed.

Lemma missing_input_is_skipped_witness :
  process_single_file dangling_batch "in/gone.mkv" "out/gone_normalized.mkv" start
  = (Returned tt,
     {| stdout := stdout start
                  ++ ["Error: Input " +:+ "in/gone.mkv" +:+ " not found."];
        engine_runs := engine_runs start;
        made_dirs := made_dirs start |}).
Proof.
  apply (missing_input_is_skipped dangling_batch "in/gone.mkv"
           "out/gone_normalized.mkv" start).
  reflexivity.
Defined.

(** A batch whose first entry has gone: it is reported and the second
    entry is still normalised. *)
Example dangling_batch_run :
  run (main dangling_batch "in" "out")
  = (Returned tt,
     {| stdout :=
          [ "📁 Batch mode detected. Scanning in...";
            "Error: Input in/gone.mkv not found.";
            "Processing: in/here.avi -> out/here_normalized.avi";
            "Detected Transfer Function: bt709";
            "-> Type: SDR. Applying normalization only.";
            "✅ Done: here_normalized.avi" ];
        engine_runs :=
          [ffmpeg_command "in/here.avi" (filter_chain SDR) "out/here_normalized.avi"];
        made_dirs := ["out"] |}).
Proof. vm_compute. reflexivity. Qed.

(** ** Output names of a batch *)

Section OutputNames.

Lemma append_length (a b : string) :
  String.length (a +:+ b) = String.length a + String.length b.
Proof.
  induction a as [|c a IH]; [reflexivity |].
  rewrite append_cons. cbn [String.length]. rewrite IH. reflexivity.
Qed.

Lemma append_inj_prefix (p x y : string) : p +:+ x = p +:+ y -> x = y.
Proof.
  induction p as [|c p IH]; [tauto |].
  rewrite !append_cons. intros [= H]. exact (IH H).
Qed.

(** Two splits of a string with tails of the same length are the same
    split. *)
Lemma append_eq_len (a b s1 s2 : string) :
  a +:+ s1 = b +:+ s2 ->
  String.length s1 = String.length s2 ->
  a = b /\ s1 = s2.
Proof.
  revert b. induction a as [|c a IH]; intros [|c' b] Heq Hlen.
  - split; [reflexivity | exact Heq].
  - exfalso. rewrite append_empty in Heq. subst s1.
    rewrite append_length in Hlen. cbn [String.length] in Hlen. lia.
  - exfalso. rewrite append_empty in Heq. subst s2.
    rewrite append_length in Hlen. cbn [String.length] in Hlen. lia.
  - rewrite !append_cons in Heq. injection Heq as -> Heq.
    destruct (IH b Heq Hlen) as [-> ->]. split; reflexivity.
Qed.

Lemma lower_length (s : string) : String.length (lower s) = String.length s.
Proof.
  induction s as [|c s IH]; [reflexivity |].
  cbn [lower String.length]. rewrite IH. reflexivity.
Qed.

Lemma kept_suffix_length (f : string) :
  In (lower (PyPath.suffix f)) supported_ext ->
  String.length (PyPath.suffix f) = 4.
Proof.
  intros Hin. rewrite <- lower_length.
  cbn in Hin. destruct Hin as [<-|[<-|[<-|[<-|[]]]]]; reflexivity.
Qed.

Lemma join_inj (d x y : string) : PyPath.join d x = PyPath.join d y -> x = y.
Proof.
  unfold PyPath.join. destruct (d =? "."); [tauto |].
  destruct (d =? "/"); intros H.
  - exact (append_inj_prefix _ _ _ H).
  - apply append_inj_prefix in H. exact (append_inj_prefix _ _ _ H).
Qed.

Lemma new_filename_length (f : string) :
  String.length (new_filename f) = String.length f + 11.
Proof.
  pose proof (f_equal String.length (stem_suffix f)) as H.
  rewrite append_length in H.
  unfold new_filename. rewrite !append_length.
  change (String.length "_normalized") with 11. lia.
Qed.

End OutputNames.

(** X11: in directory mode two different kept entries never get the same
    destination: the output path determines the entry. *)
Theorem batch_destinations_distinct (w : World) (d o f g : string) :
  In f (video_files w d) ->
  In g (video_files w d) ->
  PyPath.join o (new_filename f) = PyPath.join o (new_filename g) ->
  f = g.
Proof.
  intros Hf Hg Heq.
  apply video_files_In in Hf as [_ Hf]. apply video_files_In in Hg as [_ Hg].
  apply kept_suffix_length in Hf. apply kept_suffix_length in Hg.
  apply join_inj in Heq. unfold new_filename in Heq.
  apply append_eq_len in Heq as [Hstem Hrest].
  - apply append_inj_prefix in Hrest.
    rewrite <- (stem_suffix f), <- (stem_suffix g), Hstem, Hrest. reflexivity.
  - rewrite !append_length, Hf, Hg. reflexivity.
Qed.

Lemma batch_destinations_distinct_witness : "a.mp4" = "a.mp4".
Proof.
  apply (batch_destinations_distinct scenario_batch "in" "out" "a.mp4" "a.mp4").
  - left; reflexivity.
  - left; reflexivity.
  - reflexivity.
Defined.

(** X12: the output name of an entry is eleven characters longer than the
    entry's name, so that even with the input directory as output
    directory the destination of an entry is never the entry itself. *)
Theorem destination_is_not_source (d f : string) :
  String.length (new_filename f) = String.length f + 11
  /\ PyPath.join d (new_filename f) <> PyPath.join d f.
Proof.
  split; [apply new_filename_length |].
  intros Heq. apply join_inj in Heq.
  pose proof (new_filename_length f) as Hlen. rewrite Heq in Hlen. lia.
Qed.

(** ** Reading the probe's response *)

(** X13: [get_video_info] returns the first stream entry of the response
    and ignores any further entry; for every other response (tool failure,
    unparseable output, no ["streams"] key, empty list) it prints one error
    line and leaves with exit status 1. *)
Theorem get_video_info_first_or_exit (w : World) (p : string) (s : Proc) :
  (forall info rest,
      ffprobe w p = Parsed (Some (info :: rest)) ->
      get_video_info w p s = (Returned info, s))
  /\ ((forall info rest, ffprobe w p <> Parsed (Some (info :: rest))) ->
      exists e,
        get_video_info w p s
        = (Exited 1%Z,
           {| stdout := stdout s ++ ["Error probing file " +:+ p +:+ ": " +:+ e];
              engine_runs := engine_runs s;
              made_dirs := made_dirs s |})).
Proof.
  unfold get_video_info, first_stream. split.
  - intros info rest ->. reflexivity.
  - intros Hnone.
    destruct (ffprobe w p) as [e|e|[[|info rest]|]].
    + exists e. reflexivity.
    + exists e. reflexivity.
    + exists "list index out of range". reflexivity.
    + exfalso. exact (Hnone info rest eq_refl).
    + exists "list index out of range". reflexivity.
Qed.

Lemma get_video_info_first_or_exit_witness :
  exists e,
    get_video_info no_stream_world "in.mp4" start
    = (Exited 1%Z,
       {| stdout := stdout start
                    ++ ["Error probing file " +:+ "in.mp4" +:+ ": " +:+ e];
          engine_runs := engine_runs start;
          made_dirs := made_dirs start |}).
Proof.
  apply (get_video_info_first_or_exit no_stream_world "in.mp4" start).
  intros info rest. discriminate.
Defined.

(** X14: the normaliser and the verifier read the same stream entry: the
    verifier's [get_metadata] gives an entry exactly when the normaliser's
    probe gives it. *)
Theorem probes_agree (w : World) (p : string) (info : gmap string string) :
  get_metadata w p = inr info <-> stream_of w p = Some info.
Proof.
  unfold get_metadata, stream_of, first_stream.
  destruct (ffprobe w p) as [e|e|[[|i rest]|]]; cbn;
    split; intros H; try discriminate H; congruence.
Qed.

(** ** The verifier's run *)

Section VerifierRun.

Variable w : World.

Lemma verifying_line_is (x : string) :
  is_verifying_line ("🔍 Verifying: " +:+ x) = true.
Proof. apply prefix_occurs. exists x. reflexivity. Qed.

Lemma check_file_lines_verifying (f : string) :
  List.filter is_verifying_line (check_file_lines w f)
  = ["🔍 Verifying: " +:+ PyPath.basename f +:+ "..."].
Proof.
  unfold check_file_lines.
  assert (forall errs : list string,
             List.filter is_verifying_line (map (fun err => "   - " +:+ err) errs)
             = []) as Hrest.
  { induction errs as [|e errs IH]; [reflexivity | exact IH]. }
  cbn [List.filter]. rewrite verifying_line_is. f_equal.
  destruct (get_metadata w f) as [e|data]; [reflexivity |].
  destruct (collect_errors data expected) as [|err errs]; [reflexivity |].
  exact (Hrest (err :: errs)).
Qed.

Lemma filter_concat_lines (files : list string) :
  List.filter is_verifying_line (concat (map (check_file_lines w) files))
  = map (fun f => "🔍 Verifying: " +:+ PyPath.basename f +:+ "...") files.
Proof.
  induction files as [|f files IH]; [reflexivity |].
  cbn [map concat]. rewrite List.filter_app, check_file_lines_verifying, IH.
  reflexivity.
Qed.

End VerifierRun.

(** X15: the verifier checks every file it found, in the order found, and
    goes on after a failing or unreadable file: its output has exactly one
    verifying line per file. *)
Theorem verify_checks_every_file (w : World) :
  List.filter is_verifying_line (stdout (run (verify_main w)).2)
  = map (fun f => "🔍 Verifying: " +:+ PyPath.basename f +:+ "...")
        (glob_outputs w).
Proof.
  rewrite verify_main_run.
  destruct (glob_outputs w) as [|f files]; [reflexivity |].
  cbn [snd stdout]. rewrite List.filter_app, filter_concat_lines.
  destruct (forallb (verdict w) (f :: files)); cbn; rewrite app_nil_r; reflexivity.
Qed.

(** X16: a file whose probe response has no stream entry (tool failure,
    unparseable output, no ["streams"] key or an empty list) fails
    verification: [check_file] prints the error line and returns [False]
    without raising and without any mismatch entry. *)
Theorem unreadable_fails_verification (w : World) (f : string) :
  (forall info rest, ffprobe w f <> Parsed (Some (info :: rest))) ->
  exists e,
    run (check_file w f)
    = (Returned false,
       {| stdout := [ "🔍 Verifying: " +:+ PyPath.basename f +:+ "...";
                      "❌ ERROR: Could not read metadata. " +:+ e ];
          engine_runs := []; made_dirs := [] |}).
Proof.
  intros Hnone. unfold run. rewrite check_file_run.
  unfold verdict, check_file_lines, get_metadata.
  destruct (ffprobe w f) as [e|e|[[|info rest]|]].
  - exists e. reflexivity.
  - exists e. reflexivity.
  - exists "list index out of range". reflexivity.
  - exfalso. exact (Hnone info rest eq_refl).
  - exists "'streams'". reflexivity.
Qed.

Lemma unreadable_fails_verification_witness :
  exists e,
    run (check_file no_stream_world "outputs/x_normalized.mp4")
    = (Returned false,
       {| stdout := [ "🔍 Verifying: " +:+ PyPath.basename "outputs/x_normalized.mp4"
                      +:+ "...";
                      "❌ ERROR: Could not read metadata. " +:+ e ];
          engine_runs := []; made_dirs := [] |}).
Proof.
  apply (unreadable_fails_verification no_stream_world "outputs/x_normalized.mp4").
  intros info rest. discriminate.
Defined.

Section VerifierOrder.

Lemma forallb_Permutation {A} (p : A -> bool) (l l' : list A) :
  Permutation l l' -> forallb p l = forallb p l'.
Proof.
  induction 1 as [|x l l' _ IH|x y l|l l' l'' _ IH1 _ IH2]; cbn [forallb].
  - reflexivity.
  - rewrite IH. reflexivity.
  - destruct (p x), (p y); reflexivity.
  - congruence.
Qed.

Lemma not_pass_line (x : string) : String.prefix "✅ PASS" x = false -> "✅ PASS" <> x.
Proof. intros H <-. discriminate H. Qed.

End VerifierOrder.

(** X17: the verifier's exit status does not depend on the order in which
    the output files are found. *)
Theorem verify_exit_order_independent (w : World) (files : list string) :
  Permutation files (glob_outputs w) ->
  exit_code (run (verify_main (with_outputs w files))).1
  = exit_code (run (verify_main w)).1.
Proof.
  intros Hperm. rewrite !verify_main_run.
  change (glob_outputs (with_outputs w files)) with files.
  destruct files as [|f files].
  - apply Permutation_nil in Hperm. rewrite Hperm. reflexivity.
  - destruct (glob_outputs w) as [|g files'].
    + apply Permutation_sym, Permutation_nil in Hperm. discriminate Hperm.
    + cbn [fst exit_code].
      change (verdict (with_outputs w (f :: files))) with (verdict w).
      rewrite (forallb_Permutation (verdict w) _ _ Hperm). reflexivity.
Qed.

Lemma verify_exit_order_independent_witness :
  exit_code
    (run (verify_main
            (with_outputs verify_world
               [ "outputs/c_normalized.mp4"; "outputs/a_normalized.mp4";
                 "outputs/b_normalized.mp4" ]))).1
  = exit_code (run (verify_main verify_world)).1.
Proof.
  apply (verify_exit_order_independent verify_world).
  apply (Permutation_cons_app
           ["outputs/a_normalized.mp4"; "outputs/b_normalized.mp4"] []
           "outputs/c_normalized.mp4").
  reflexivity.
Defined.

(** X18: [check_file] prints the pass line exactly when it returns [True]:
    the printed verdict and the returned one agree. *)
Theorem pass_line_iff_passes (w : World) (f : string) :
  In "✅ PASS" (stdout (run (check_file w f)).2)
  <-> (run (check_file w f)).1 = Returned true.
Proof.
  unfold run. rewrite check_file_run. cbn [fst snd stdout start app].
  unfold verdict, check_file_lines.
  assert ("✅ PASS" <> "🔍 Verifying: " +:+ PyPath.basename f +:+ "...") as Hhead.
  { apply not_pass_line. reflexivity. }
  destruct (get_metadata w f) as [e|data].
  - split; [|discriminate].
    intros [H|[H|[]]]; [congruence |].
    exfalso. revert H. apply not_eq_sym, not_pass_line. reflexivity.
  - destruct (collect_errors data expected) as [|err errs].
    + split; [reflexivity |]. intros _. right. left. reflexivity.
    + split; [|discriminate].
      intros [H|[H|H]]; [congruence | discriminate H |].
      exfalso. apply in_map_iff in H as [x [H _]].
      revert H. apply not_eq_sym, not_pass_line. reflexivity.
Qed.

(** ** No entry is encoded twice *)

Section Once.

Variable w : World.

Lemma reached_NoDup (stop : string -> bool) (files : list string) :
  NoDup files -> NoDup (reached stop files).
Proof.
  induction 1 as [|f files Hf _ IH]; cbn [reached]; [constructor |].
  apply NoDup_cons. split.
  - destruct (stop f); [apply not_elem_of_nil |].
    intros Hin. apply Hf. apply list_elem_of_In.
    apply list_elem_of_In in Hin. exact (reached_In stop files f Hin).
  - destruct (stop f); [constructor | exact IH].
Qed.

Lemma NoDup_concat_option_list {A B} (g : A -> option B) (l : list A) :
  (forall x y c, g x = Some c -> g y = Some c -> x = y) ->
  NoDup l ->
  NoDup (concat (map (fun x => option_list (g x)) l)).
Proof.
  intros Hinj. induction 1 as [|x l Hx _ IH]; cbn [map concat]; [constructor |].
  destruct (g x) as [c|] eqn:Hc; cbn [option_list option_rect app]; [|exact IH].
  apply NoDup_cons. split; [|exact IH].
  intros Hin. apply list_elem_of_In in Hin.
  apply In_concat_option_list in Hin as [y [Hy Hgy]].
  apply Hx. rewrite (Hinj x y c Hc Hgy). apply list_elem_of_In. exact Hy.
Qed.

End Once.

(** X19: in directory mode no command is handed to the engine twice: with
    the entries of the input directory pairwise different, the engine runs
    of a batch are pairwise different. *)
Theorem batch_runs_once (w : World) (d o : string) :
  is_dir w d = true ->
  NoDup (iterdir w d) ->
  NoDup (engine_runs (run (main w d o)).2).
Proof.
  intros Hdir Hnodup. rewrite (main_directory_run w d o Hdir).
  assert (NoDup (video_files w d)) as Hfiles.
  { unfold video_files. apply NoDup_filter. exact Hnodup. }
  destruct (video_files w d) as [|f files]; [constructor |].
  cbn [snd engine_runs].
  apply (NoDup_concat_option_list
           (fun g => engine_command w (PyPath.join d g)
                       (PyPath.join o (new_filename g)))).
  - intros x y c Hx Hy.
    apply engine_command_Some in Hx as [ix (_ & _ & ->)].
    apply engine_command_Some in Hy as [iy (_ & _ & Hy)].
    apply (f_equal (fun l => nth 3 l "")) in Hy.
    exact (join_inj d x y Hy).
  - apply reached_NoDup. exact Hfiles.
Qed.

Lemma batch_runs_once_witness :
  NoDup (engine_runs (run (main scenario_batch "in" "out")).2).
Proof.
  apply (batch_runs_once scenario_batch "in" "out").
  - reflexivity.
  - apply (bool_decide_unpack _). reflexivity.
Defined.
